(** * RAG system frontend: a shallow embedding of the client code

    The TypeScript sources embedded here are the evaluation console
    (EvaluationPage.tsx, MetricsCard.tsx, LatencyChart.tsx), the chat box
    (ChatInterface.tsx) and the HTTP service layer (services/api.ts,
    services/evaluationApi.ts).  The retrieval core (RRF fusion, recall@k)
    lives behind the REST boundary and is modelled from its specification.

    Conventions.
    - A JavaScript string is its sequence of UTF-16 code units.
    - A JSON number is an exact rational; arithmetic whose result may leave the
      finite numbers (division by zero) returns a [jsnum].
    - A promise that may reject is a [completion]: [Normal v] or [Throw e]. *)

From Stdlib Require Import QArith Qround DecimalPos.
From stdpp Require Import base list sorting gmap strings.

Local Close Scope Q_scope.
Local Open Scope nat_scope.

(** ** JavaScript strings *)

Module JsString.

Abbreviation jsstring := (list N).

(** The code units of an ASCII literal of the source. *)
Definition js (s : string) : jsstring :=
  (λ a, Ascii.N_of_ascii a) <$> String.list_ascii_of_string s.
Arguments js : simpl never.

(** ECMAScript WhiteSpace and LineTerminator code points, the characters
    [String.prototype.trim] strips.  All of them are in the basic plane, so
    each is one code unit. *)
Definition is_white_space (c : N) : bool :=
  ((c =? 0x0009) || (c =? 0x000A) || (c =? 0x000B) || (c =? 0x000C)
   || (c =? 0x000D) || (c =? 0x0020) || (c =? 0x00A0) || (c =? 0x1680)
   || ((0x2000 <=? c) && (c <=? 0x200A))
   || (c =? 0x2028) || (c =? 0x2029) || (c =? 0x202F) || (c =? 0x205F)
   || (c =? 0x3000) || (c =? 0xFEFF))%N.

Fixpoint trimStart (s : jsstring) : jsstring :=
  match s with
  | [] => []
  | c :: s' => if is_white_space c then trimStart s' else s
  end.

Definition trimEnd (s : jsstring) : jsstring :=
  reverse (trimStart (reverse s)).

Definition trim (s : jsstring) : jsstring := trimEnd (trimStart s).

(** A string that is empty or starts with a character [trim] keeps. *)
Definition head_not_space (s : jsstring) : Prop :=
  match s with
  | [] => True
  | c :: _ => is_white_space c = false
  end.

(** ToBoolean on a string: the empty string is the only falsy one. *)
Definition truthy (s : jsstring) : bool :=
  match s with [] => false | _ => true end.

(** [a || b] where [a] is a string that may be undefined. *)
Definition or_default (a : option jsstring) (b : jsstring) : jsstring :=
  match a with
  | Some s => if truthy s then s else b
  | None => b
  end.

End JsString.
Import JsString.

(** ** Promises that may reject *)

Inductive completion (E A : Type) : Type :=
| Normal (a : A)
| Throw (e : E).
Arguments Normal {E A} a.
Arguments Throw {E A} e.

#[global] Instance completion_ret {E} : MRet (completion E) := λ A a, Normal a.

#[global] Instance completion_bind {E} : MBind (completion E) := λ A B k c,
  match c with
  | Normal a => k a
  | Throw e => Throw e
  end.

(** [try { c } catch { h }] *)
Definition try_catch {E A} (c : completion E A) (h : E → A) : A :=
  match c with
  | Normal a => a
  | Throw e => h e
  end.

(** The rejection of an axios call, as far as the handlers read it:
    [err.response?.data?.detail]. *)
Record AxiosError := { detail : option jsstring }.

(** What a service function can throw: [new Error(msg)] of its own, the
    TypeError of a property read on null or undefined, or axios's rejection. *)
Inductive exn : Type :=
| Error (msg : jsstring)
| TypeError
| Axios (e : AxiosError).

(** [err.response?.data?.detail] on a caught value, for a detail that is a
    string or missing.  [err] is untyped in the source; a detail of another
    shape (a list of validation errors) is outside this model. *)
Definition error_detail (err : exn) : option jsstring :=
  match err with
  | Axios e => detail e
  | Error _ | TypeError => None
  end.

(** ** types/evaluation.ts *)

Record RetrievalMetrics := {
  recall_at_5 : Q;
  recall_at_10 : Q;
  ndcg_at_10 : Q;
  mrr : Q;
  hit_at_5 : bool;
  hit_at_10 : bool;
}.

Record GenerationMetrics := {
  faithfulness : option Q;
  answer_relevancy : option Q;
  context_precision : option Q;
  context_recall : option Q;
}.

Record LatencyBreakdown := {
  total_ms : Q;
  query_rewrite_ms : Q;
  retrieval_ms : Q;
  rerank_ms : Q;
  generation_ms : Q;
}.

Record RetrievedDocument := {
  doc_id : jsstring;
  doc_content : jsstring;
  score : Q;
  rank : Q;
}.

Record EvaluationResult := {
  er_question : jsstring;
  er_answer : jsstring;
  er_ground_truth : option jsstring;
  retrieved_docs : list RetrievedDocument;
  retrieval_metrics : option RetrievalMetrics;
  generation_metrics : option GenerationMetrics;
  latency : LatencyBreakdown;
  er_profile_id : jsstring;
  routing_decision : jsstring;
}.

Record ProfileInfo := {
  pi_id : jsstring;
  pi_name : jsstring;
  pi_description : jsstring;
  retriever_type : jsstring;
  use_reranker : bool;
  use_query_rewrite : bool;
}.

Record SingleEvalRequest := {
  question : jsstring;
  ground_truth : option jsstring;
  relevant_doc_ids : option (list jsstring);
  profile_id : jsstring;
  include_generation_metrics : bool;
}.

(** ** services/evaluationApi.ts *)

Module EvaluationApi.

Definition evaluateSingle
    (post : jsstring → SingleEvalRequest → completion exn EvaluationResult)
    (request : SingleEvalRequest) : completion exn EvaluationResult :=
  response_data ← post (js "/api/v1/eval/single") request;
  mret response_data.

(** The body of a downloaded export. *)
Record Blob := { blob_bytes : list N }.

Definition exportResultsJson
    (post : jsstring → list EvaluationResult → completion exn Blob)
    (results : list EvaluationResult) : completion exn Blob :=
  response_data ← post (js "/api/v1/eval/export/json") results;
  mret response_data.

Definition exportResultsCsv
    (post : jsstring → list EvaluationResult → completion exn Blob)
    (results : list EvaluationResult) : completion exn Blob :=
  response_data ← post (js "/api/v1/eval/export/csv") results;
  mret response_data.

End EvaluationApi.

(** ** components/evaluation/EvaluationPage.tsx *)

Module EvaluationPage.

(** The [useState] cells of the component. *)
Record State := {
  profiles : list ProfileInfo;
  selectedProfileId : jsstring;
  st_question : jsstring;
  groundTruth : jsstring;
  includeRagas : bool;
  isLoading : bool;
  results : list EvaluationResult;
  ragasAvailable : bool;
  error : option jsstring;
}.

Definition initial : State :=
  {| profiles := []; selectedProfileId := js "hybrid_rerank";
     st_question := []; groundTruth := []; includeRagas := true;
     isLoading := false; results := []; ragasAvailable := false;
     error := None |}.

Definition setError (e : option jsstring) (s : State) : State :=
  {| profiles := profiles s; selectedProfileId := selectedProfileId s;
     st_question := st_question s; groundTruth := groundTruth s;
     includeRagas := includeRagas s; isLoading := isLoading s;
     results := results s; ragasAvailable := ragasAvailable s;
     error := e |}.

Definition setIsLoading (b : bool) (s : State) : State :=
  {| profiles := profiles s; selectedProfileId := selectedProfileId s;
     st_question := st_question s; groundTruth := groundTruth s;
     includeRagas := includeRagas s; isLoading := b;
     results := results s; ragasAvailable := ragasAvailable s;
     error := error s |}.

(** [setResults] takes an updater of the previous list. *)
Definition setResults (f : list EvaluationResult → list EvaluationResult)
    (s : State) : State :=
  {| profiles := profiles s; selectedProfileId := selectedProfileId s;
     st_question := st_question s; groundTruth := groundTruth s;
     includeRagas := includeRagas s; isLoading := isLoading s;
     results := f (results s); ragasAvailable := ragasAvailable s;
     error := error s |}.

(** The updater passed to [setResults] on success. *)
Definition push_result (result : EvaluationResult)
    (prev : list EvaluationResult) : list EvaluationResult :=
  result :: prev.

(** [handleEvaluate]: returns the requests handed to [evaluateSingle], in
    order, and the component state once the handler has settled. *)
Definition handleEvaluate
    (evaluateSingle : SingleEvalRequest → completion exn EvaluationResult)
    (s : State) : list SingleEvalRequest * State :=
  if negb (truthy (trim (st_question s))) then
    ([], setError (Some (js "Please enter a question")) s)
  else
    let s1 := setError None (setIsLoading true s) in
    let request :=
      {| question := trim (st_question s);
         ground_truth :=
           (let g := trim (groundTruth s) in
            if truthy g then Some g else None);
         relevant_doc_ids := None;
         profile_id := selectedProfileId s;
         include_generation_metrics := includeRagas s && ragasAvailable s |} in
    let s2 :=
      match evaluateSingle request with
      | Normal result => setResults (push_result result) s1
      | Throw err =>
          setError (Some (or_default (error_detail err) (js "Evaluation failed"))) s1
      end in
    ([request], setIsLoading false s2).

(** [const latestResult = results[0]] *)
Definition latestResult (s : State) : option EvaluationResult :=
  results s !! 0.

Definition setSelectedProfileId (id : jsstring) (s : State) : State :=
  {| profiles := profiles s; selectedProfileId := id;
     st_question := st_question s; groundTruth := groundTruth s;
     includeRagas := includeRagas s; isLoading := isLoading s;
     results := results s; ragasAvailable := ragasAvailable s;
     error := error s |}.

Definition setQuestion (q : jsstring) (s : State) : State :=
  {| profiles := profiles s; selectedProfileId := selectedProfileId s;
     st_question := q; groundTruth := groundTruth s;
     includeRagas := includeRagas s; isLoading := isLoading s;
     results := results s; ragasAvailable := ragasAvailable s;
     error := error s |}.

Definition setGroundTruth (g : jsstring) (s : State) : State :=
  {| profiles := profiles s; selectedProfileId := selectedProfileId s;
     st_question := st_question s; groundTruth := g;
     includeRagas := includeRagas s; isLoading := isLoading s;
     results := results s; ragasAvailable := ragasAvailable s;
     error := error s |}.

Definition setIncludeRagas (b : bool) (s : State) : State :=
  {| profiles := profiles s; selectedProfileId := selectedProfileId s;
     st_question := st_question s; groundTruth := groundTruth s;
     includeRagas := b; isLoading := isLoading s;
     results := results s; ragasAvailable := ragasAvailable s;
     error := error s |}.

Inductive ExportFormat : Type := json | csv.

Definition format_name (format : ExportFormat) : jsstring :=
  match format with
  | json => js "json"
  | csv => js "csv"
  end.

(** [iso.slice(0, 19).replace(/:/g, '-')] on the ISO string of the clock. *)
Definition export_timestamp (iso : jsstring) : jsstring :=
  map (λ c, if (c =? 58)%N then 45%N else c) (take 19 iso).

(** [handleExport]: the calls of [downloadBlob], as blob and file name, and
    the state afterwards.  [now_iso] is [new Date().toISOString()]. *)
Definition handleExport
    (exportResultsJson exportResultsCsv :
       list EvaluationResult → completion exn EvaluationApi.Blob)
    (now_iso : jsstring) (format : ExportFormat) (s : State)
  : list (EvaluationApi.Blob * jsstring) * State :=
  if length (results s) =? 0 then ([], s)
  else
    match (match format with
           | json => exportResultsJson (results s)
           | csv => exportResultsCsv (results s)
           end) with
    | Normal blob =>
        let timestamp := export_timestamp now_iso in
        ([(blob, js "eval_results_" ++ timestamp ++ js "." ++ format_name format)], s)
    | Throw _ => ([], setError (Some (js "Export failed")) s)
    end.

(** [handleClear] *)
Definition handleClear (s : State) : State := setResults (λ _, []) s.

(** The [disabled] attribute of the Run Evaluation button. *)
Definition evaluate_disabled (s : State) : bool :=
  isLoading s || negb (truthy (trim (st_question s))).

(** The [disabled] attribute of the RAGAS checkbox. *)
Definition ragas_checkbox_disabled (s : State) : bool :=
  negb (ragasAvailable s).

(** The events the rendered page reacts to, each with the handler the JSX
    binds to it: the two text areas, the checkbox, the profile selector,
    the Dismiss, Run Evaluation and Clear buttons. *)
Inductive Action : Type :=
| ChangeQuestion (value : jsstring)
| ChangeGroundTruth (value : jsstring)
| ChangeIncludeRagas (checked : bool)
| SelectProfile (profileId : jsstring)
| DismissError
| RunEvaluation
| ClearResults.

Definition dispatch
    (evaluateSingle : SingleEvalRequest → completion exn EvaluationResult)
    (a : Action) (s : State) : list SingleEvalRequest * State :=
  match a with
  | ChangeQuestion value => ([], setQuestion value s)
  | ChangeGroundTruth value => ([], setGroundTruth value s)
  | ChangeIncludeRagas checked => ([], setIncludeRagas checked s)
  | SelectProfile profileId => ([], setSelectedProfileId profileId s)
  | DismissError => ([], setError None s)
  | RunEvaluation => handleEvaluate evaluateSingle s
  | ClearResults => ([], handleClear s)
  end.

(** A run of the page over a sequence of events; the backend may answer the
    [n]-th event differently from the others. *)
Fixpoint session
    (evaluateSingle : nat → SingleEvalRequest → completion exn EvaluationResult)
    (n : nat) (actions : list Action) (s : State)
  : list SingleEvalRequest * State :=
  match actions with
  | [] => ([], s)
  | a :: rest =>
      let step := dispatch (evaluateSingle n) a s in
      let tail := session evaluateSingle (S n) rest step.2 in
      (step.1 ++ tail.1, tail.2)
  end.

End EvaluationPage.

(** ** components/ChatInterface.tsx *)

Module ChatInterface.

(** [handleSend]: the arguments [onSend] is called with, and the new value
    of the input box. *)
Definition handleSend (isLoading isConnected : bool) (input : jsstring)
  : list jsstring * jsstring :=
  if truthy (trim input) && negb isLoading && isConnected then
    ([trim input], [])
  else ([], input).

(** The [disabled] attribute of the send button. *)
Definition send_disabled (isLoading isConnected : bool) (input : jsstring)
  : bool :=
  negb (truthy (trim input)) || isLoading || negb isConnected.

Record KeyEvent := { key : jsstring; shiftKey : bool }.

(** [handleKeyDown]: whether [preventDefault] was called, and what
    [handleSend] did if it ran. *)
Definition handleKeyDown (isLoading isConnected : bool) (e : KeyEvent)
    (input : jsstring) : bool * (list jsstring * jsstring) :=
  if bool_decide (key e = js "Enter") && negb (shiftKey e) then
    (true, handleSend isLoading isConnected input)
  else (false, ([], input)).

End ChatInterface.

(** ** types/chat.ts *)

Record QueryResponse := {
  answer : jsstring;
  sources : option (list jsstring);
}.

Record UploadData := {
  ud_file_name : jsstring;
  ud_chunks_created : Q;
  ud_doc_id : jsstring;
}.

Record UploadResponse := {
  success : bool;
  message : jsstring;
  data : UploadData;
}.

(** ** services/api.ts *)

Module Api.

Record BackendSource := {
  content : jsstring;
  source : option jsstring;
  bs_score : option Q;
}.

(** [sources] is read with [?.], so it may be missing at run time. *)
Record BackendQueryResponse := {
  bq_answer : jsstring;
  bq_sources : option (list BackendSource);
  processing_time_ms : Q;
}.

(** The JSON body [{ question }]. *)
Record QueryBody := { qb_question : jsstring }.

Definition sendQuery
    (post : jsstring → QueryBody → completion exn BackendQueryResponse)
    (question : jsstring) : completion exn QueryResponse :=
  response ← post (js "/api/v1/query") {| qb_question := question |};
  mret {| answer := bq_answer response;
          sources := option_map (map (λ s, content s)) (bq_sources response) |}.

Record BackendUploadResponse := {
  bu_task_id : jsstring;
  bu_file_name : jsstring;
  bu_status : jsstring;
  bu_message : jsstring;
}.

Record BackendUploadStatusResponse := {
  task_id : jsstring;
  status : jsstring;
  file_name : jsstring;
  chunks_created : option Q;
  us_error : option jsstring;
  completed_at : option jsstring;
}.

(** [status === 'completed' || status === 'failed'] *)
Definition terminal (r : BackendUploadStatusResponse) : bool :=
  bool_decide (status r = js "completed") || bool_decide (status r = js "failed").

(** The status endpoint answers the [i]-th GET of a run with [get url i]:
    the second argument counts the requests made before this one. *)
Definition getter : Type :=
  jsstring → nat → completion exn BackendUploadStatusResponse.

(** The loop of [pollUploadStatus] from iteration [i], with [remaining]
    iterations to go, that is [maxAttempts - i]. *)
Fixpoint poll_loop (get : getter) (taskId : jsstring) (remaining i : nat)
  : completion exn BackendUploadStatusResponse :=
  match remaining with
  | 0 => Throw (Error (js "Upload timeout"))
  | S remaining' =>
      response ← get (js "/api/v1/upload/" ++ taskId) i;
      if terminal response then mret response
      else poll_loop get taskId remaining' (S i)
  end.

Definition pollUploadStatus (get : getter) (taskId : jsstring)
    (maxAttempts : nat) : completion exn BackendUploadStatusResponse :=
  poll_loop get taskId maxAttempts 0.

(** The default of the [maxAttempts] parameter. *)
Definition default_maxAttempts : nat := 60.

Record File := { f_name : jsstring; f_bytes : list N }.

(** [chunks_created || 0] on an optional finite number. *)
Definition or_zero (n : option Q) : Q :=
  match n with
  | Some q => q
  | None => 0%Q
  end.

Definition uploadDocument
    (post : jsstring → list (jsstring * File) → completion exn BackendUploadResponse)
    (get : getter) (file : File) : completion exn UploadResponse :=
  let formData := [(js "file", file)] in
  uploadResponse ← post (js "/api/v1/upload") formData;
  statusResponse ← pollUploadStatus get (bu_task_id uploadResponse) default_maxAttempts;
  if bool_decide (status statusResponse = js "failed") then
    Throw (Error (or_default (us_error statusResponse) (js "Upload failed")))
  else
    mret {| success := true;
            message := js "Upload completed";
            data := {| ud_file_name := file_name statusResponse;
                       ud_chunks_created := or_zero (chunks_created statusResponse);
                       ud_doc_id := task_id statusResponse |} |}.

(** The poll reaches the [i]-th status response: it is among the first
    [default_maxAttempts], it reports 'completed' or 'failed', and no
    earlier response does. *)
Definition reached (rs : nat → BackendUploadStatusResponse) (i : nat) : Prop :=
  i < default_maxAttempts
  ∧ terminal (rs i) = true
  ∧ ∀ j, j < i → terminal (rs j) = false.

(** A parsed JSON payload, typed [any] in the source. *)
#[local] Set Warnings "-register-all".
Inductive jsval : Type :=
| JUndefined
| JNull
| JBool (b : bool)
| JNum (q : Q)
| JStr (s : jsstring)
| JArr (items : list jsval)
| JObj (fields : list (jsstring * jsval)).

Fixpoint own_property (fields : list (jsstring * jsval)) (k : jsstring)
  : jsval :=
  match fields with
  | [] => JUndefined
  | (k', v) :: rest => if bool_decide (k' = k) then v else own_property rest k
  end.

(** [v.k] for a key [k] that no prototype defines: reading a property of
    null or undefined throws, a primitive or an array has no such
    property, an object yields its own one. *)
Definition get_prop (v : jsval) (k : jsstring) : completion exn jsval :=
  match v with
  | JUndefined | JNull => Throw TypeError
  | JObj fields => mret (own_property fields k)
  | _ => mret JUndefined
  end.

(** [v === 'lit'] *)
Definition strict_eq_str (v : jsval) (lit : jsstring) : bool :=
  match v with
  | JStr s => bool_decide (s = lit)
  | _ => false
  end.

Record Response := { r_data : jsval }.

Definition checkHealth (get : jsstring → completion exn Response)
  : completion exn bool :=
  mret (try_catch
          (response ← get (js "/health");
           st ← get_prop (r_data response) (js "status");
           mret (strict_eq_str st (js "ok")))
          (λ _, false)).

End Api.

(** ** JavaScript numbers *)

Module JsNumber.

(** The value of an arithmetic expression over finite numbers.  Quotients
    and products are exact: rounding to binary64, overflow to an infinity
    and the sign of zero are not modelled.  The theorems on them
    therefore compare a result with a constant, in a direction the rounded
    result satisfies as well (rounding is monotone and keeps 0, 1 and
    100). *)
Inductive jsnum : Type :=
| Finite (q : Q)
| PosInf
| NegInf
| NaN.

(** [a / b] on finite operands. *)
Definition js_div (a b : Q) : jsnum :=
  if Qeq_bool b 0 then
    if Qeq_bool a 0 then NaN
    else if Qle_bool 0 a then PosInf else NegInf
  else Finite (a / b).

(** [x * c] for a finite [c]. *)
Definition js_mul (x : jsnum) (c : Q) : jsnum :=
  match x with
  | Finite q => Finite (q * c)
  | NaN => NaN
  | PosInf =>
      if Qeq_bool c 0 then NaN else if Qle_bool 0 c then PosInf else NegInf
  | NegInf =>
      if Qeq_bool c 0 then NaN else if Qle_bool 0 c then NegInf else PosInf
  end.

Definition Qlt_bool (a b : Q) : bool := negb (Qle_bool b a).

(** [x < c]: every comparison with NaN is false. *)
Definition js_lt (x : jsnum) (c : Q) : bool :=
  match x with
  | Finite q => Qlt_bool q c
  | NegInf => true
  | PosInf | NaN => false
  end.

(** [x <= c] *)
Definition js_le (x : jsnum) (c : Q) : bool :=
  match x with
  | Finite q => Qle_bool q c
  | NegInf => true
  | PosInf | NaN => false
  end.

Fixpoint uint_units (u : Decimal.uint) : jsstring :=
  match u with
  | Decimal.Nil => []
  | Decimal.D0 u => 48%N :: uint_units u
  | Decimal.D1 u => 49%N :: uint_units u
  | Decimal.D2 u => 50%N :: uint_units u
  | Decimal.D3 u => 51%N :: uint_units u
  | Decimal.D4 u => 52%N :: uint_units u
  | Decimal.D5 u => 53%N :: uint_units u
  | Decimal.D6 u => 54%N :: uint_units u
  | Decimal.D7 u => 55%N :: uint_units u
  | Decimal.D8 u => 56%N :: uint_units u
  | Decimal.D9 u => 57%N :: uint_units u
  end.

(** The decimal digits of a natural number, "0" for zero. *)
Definition decimal (n : N) : jsstring := uint_units (N.to_uint n).

Fixpoint drop_zeros (s : jsstring) : jsstring :=
  match s with
  | [] => []
  | c :: s' => if (c =? 48)%N then drop_zeros s' else s
  end.

(** Number::toString for a magnitude of 10^21 or more: one digit, the
    remaining significant digits after a point, and the exponent.  The
    digits printed are those of the exact value; the engine prints the
    shortest digit string that reads back as the same binary64. *)
Definition toString_large (x : Q) : jsstring :=
  match decimal (Z.to_N (Qfloor x)) with
  | [] => []
  | d :: rest =>
      let frac := reverse (drop_zeros (reverse rest)) in
      d :: (if truthy frac then 46%N :: frac else [])
        ++ js "e+" ++ decimal (N.of_nat (length rest))
  end.

(** [Number.prototype.toFixed] on a finite number, after ECMA-262: the
    sign, then the integer [n] nearest to [x * 10^f] (the larger one on a
    tie), zero-padded to [f + 1] digits and split by a point before the
    last [f]. *)
Definition toFixed (x : Q) (f : nat) : jsstring :=
  let neg := Qlt_bool x 0 in
  let x := if neg then (- x)%Q else x in
  let m :=
    if Qle_bool (inject_Z (10 ^ 21)) x then toString_large x
    else
      let n := Z.to_N (Qfloor (x * inject_Z (10 ^ Z.of_nat f) + (1 # 2))%Q) in
      let m := decimal n in
      if bool_decide (f = 0) then m
      else
        let m := replicate (S f - length m) 48%N ++ m in
        let k := length m in
        take (k - f) m ++ [46%N] ++ drop (k - f) m in
  (if neg then [45%N] else []) ++ m.

(** [toFixed] on the value of an expression. *)
Definition jsnum_toFixed (x : jsnum) (f : nat) : jsstring :=
  match x with
  | Finite q => toFixed q f
  | PosInf => js "Infinity"
  | NegInf => js "-Infinity"
  | NaN => js "NaN"
  end.

End JsNumber.
Import JsNumber.

(** ** components/evaluation/LatencyChart.tsx *)

Module LatencyChart.

Record Segment := {
  seg_name : jsstring;
  seg_value : Q;
  seg_color : jsstring;
}.

Definition segments (latency : LatencyBreakdown) : list Segment :=
  [ {| seg_name := js "Query Rewrite"; seg_value := query_rewrite_ms latency;
       seg_color := js "bg-blue-500" |};
    {| seg_name := js "Retrieval"; seg_value := retrieval_ms latency;
       seg_color := js "bg-green-500" |};
    {| seg_name := js "Reranking"; seg_value := rerank_ms latency;
       seg_color := js "bg-amber-500" |};
    {| seg_name := js "Generation"; seg_value := generation_ms latency;
       seg_color := js "bg-purple-500" |} ].

(** [(seg.value / total) * 100] *)
Definition width (total : Q) (seg : Segment) : jsnum :=
  js_mul (js_div (seg_value seg) total) 100.

(** One [div] of the stacked bar; its style width is [bar_width] percent. *)
Record Bar := {
  bar_class : jsstring;
  bar_width : jsnum;
  bar_title : jsstring;
}.

(** The children of the stacked bar: [null] for a segment under 1%. *)
Definition stacked_bar (latency : LatencyBreakdown) : list (option Bar) :=
  let total := total_ms latency in
  map (λ seg,
         let width := width total seg in
         if js_lt width 1 then None
         else Some {| bar_class := seg_color seg ++ js " transition-all duration-300";
                      bar_width := width;
                      bar_title :=
                        seg_name seg ++ js ": " ++ toFixed (seg_value seg) 0
                          ++ js "ms (" ++ jsnum_toFixed width 1 ++ js "%)" |})
      (segments latency).

(** [Math.max] of finite numbers: the largest argument, minus infinity when
    there is none. *)
Definition Math_max (xs : list Q) : jsnum :=
  foldr (λ x acc,
           match acc with
           | Finite m => if Qle_bool m x then Finite x else Finite m
           | _ => Finite x
           end) NegInf xs.

(** What a spread call raises when the array has more elements than the
    engine accepts as arguments of one call. *)
Inductive spread_error : Type := RangeError.

(** [Math.max(...xs)]; [max_arguments] is the engine's bound on the number
    of arguments of a call, which the source does not fix. *)
Definition Math_max_spread (max_arguments : nat) (xs : list Q)
  : completion spread_error jsnum :=
  if length xs <=? max_arguments then Normal (Math_max xs)
  else Throw RangeError.

(** [(total / maxTotal) * 100]; a finite number over an infinity is zero. *)
Definition comparison_width (total : Q) (maxTotal : jsnum) : jsnum :=
  match maxTotal with
  | Finite m => js_mul (js_div total m) 100
  | PosInf | NegInf => Finite 0
  | NaN => NaN
  end.

Record ComparisonRow := {
  row_name : jsstring;
  row_label : jsstring;
  row_width : jsnum;
}.

(** [LatencyComparison]: one row per profile, scaled to the slowest. *)
Definition LatencyComparison (max_arguments : nat)
    (profiles : list (jsstring * LatencyBreakdown))
  : completion spread_error (list ComparisonRow) :=
  maxTotal ← Math_max_spread max_arguments (map (λ p, total_ms p.2) profiles);
  mret (map (λ profile,
               let width := comparison_width (total_ms profile.2) maxTotal in
               {| row_name := profile.1;
                  row_label := toFixed (total_ms profile.2) 0 ++ js "ms";
                  row_width := width |})
            profiles).

(** The data-model invariant on a breakdown: no stage above the total. *)
Definition stages_within_total (latency : LatencyBreakdown) : Prop :=
  (query_rewrite_ms latency <= total_ms latency
   ∧ retrieval_ms latency <= total_ms latency
   ∧ rerank_ms latency <= total_ms latency
   ∧ generation_ms latency <= total_ms latency)%Q.

(** [width <= 100] holds of every segment. *)
Definition widths_at_most_100 (latency : LatencyBreakdown) : Prop :=
  ∀ seg, seg ∈ segments latency →
         js_le (width (total_ms latency) seg) 100 = true.

End LatencyChart.

(** ** components/evaluation/MetricsCard.tsx *)

Module MetricsCard.

Inductive Format : Type := percent | number | ms.

(** [formatValue]; the [default] arm of the switch is out of reach of the
    three formats the type admits. *)
Definition formatValue (format : Format) (val : option Q) : jsstring :=
  match val with
  | None => js "N/A"
  | Some val =>
      match format with
      | percent => toFixed (val * 100) 1 ++ js "%"
      | ms => toFixed val 0 ++ js "ms"
      | number => toFixed val 2
      end
  end.

Definition getStatusColor (format : Format) (value target : option Q)
  : jsstring :=
  match value, target with
  | Some value, Some target =>
      match format with
      | ms =>
          if Qle_bool value target then js "text-green-600"
          else js "text-amber-600"
      | _ =>
          if Qle_bool target value then js "text-green-600"
          else js "text-amber-600"
      end
  | _, _ => js "text-gray-600"
  end.

Inductive Icon : Type :=
| Minus (className : jsstring)
| TrendingUp (className : jsstring)
| TrendingDown (className : jsstring).

Definition getTrendIcon (format : Format) (value target : option Q) : Icon :=
  match value, target with
  | Some value, Some target =>
      match format with
      | ms =>
          if Qle_bool value target then TrendingDown (js "w-4 h-4 text-green-500")
          else TrendingUp (js "w-4 h-4 text-amber-500")
      | _ =>
          if Qle_bool target value then TrendingUp (js "w-4 h-4 text-green-500")
          else TrendingDown (js "w-4 h-4 text-amber-500")
      end
  | _, _ => Minus (js "w-4 h-4 text-gray-400")
  end.

Definition icon_className (i : Icon) : jsstring :=
  match i with
  | Minus c | TrendingUp c | TrendingDown c => c
  end.

(** What the card shows: the value span with its colour class and, when a
    target is given, the trend icon and the target label.  The optional
    header icon is passed through untouched and left out here. *)
Record Card := {
  card_title : jsstring;
  value_class : jsstring;
  value_text : jsstring;
  target_part : option (Icon * jsstring);
  card_subtitle : option jsstring;
}.

(** The component; [format] defaults to ['percent']. *)
Definition MetricsCard (title : jsstring) (value : option Q)
    (subtitle : option jsstring) (format : option Format) (target : option Q)
  : Card :=
  let format := default percent format in
  {| card_title := title;
     value_class := js "text-2xl font-bold " ++ getStatusColor format value target;
     value_text := formatValue format value;
     target_part :=
       match target with
       | Some t =>
           Some (getTrendIcon format value target,
                 [0xBAA9%N; 0xD45C%N] ++ js ": " ++ formatValue format (Some t))
       | None => None
       end;
     card_subtitle :=
       match subtitle with
       | Some s => if truthy s then Some s else None
       | None => None
       end |}.

End MetricsCard.

(** ** The retrieval core behind the REST boundary *)

Module Retrieval.

(** Modelled from the spec: the hybrid retriever's Reciprocal Rank Fusion and
    the evaluation engine's recall@k.  Both run in the backend service, of
    which the repository slice holds only the README; the definitions below
    follow sections 4.3 and 4.6 of the specification.  A ranked list is the
    sequence of its doc_ids, best first; the rank of a document is its
    1-based position. *)
Fixpoint rank_in (l : list jsstring) (d : jsstring) : option nat :=
  match l with
  | [] => None
  | x :: l' => if decide (x = d) then Some 1 else S <$> rank_in l' d
  end.

(** Modelled from the spec: the contribution of one list to a document,
    [1 / (rrf_constant + rank)], and 0 for a list that lacks it. *)
Definition rrf_term (rrf_constant : Q) (l : list jsstring) (d : jsstring) : Q :=
  match rank_in l d with
  | Some r => (1 / (rrf_constant + inject_Z (Z.of_nat r)))%Q
  | None => 0%Q
  end.

(** Modelled from the spec: the sum of the contributions over all lists. *)
Definition fused_score (rrf_constant : Q) (lists : list (list jsstring))
    (d : jsstring) : Q :=
  foldr (λ l acc, (rrf_term rrf_constant l d + acc)%Q) 0%Q lists.

(** Modelled from the spec: the lowest rank of a document across the lists
    that contain it. *)
Definition min_rank (lists : list (list jsstring)) (d : jsstring) : option nat :=
  foldr (λ l acc,
           match rank_in l d, acc with
           | Some r, Some a => Some (r `min` a)
           | Some r, None => Some r
           | None, _ => acc
           end) None lists.

(** Lexicographic order on code units, the last tie-break. *)
Fixpoint doc_id_le (a b : jsstring) : bool :=
  match a, b with
  | [], _ => true
  | _ :: _, [] => false
  | x :: a', y :: b' =>
      if (x <? y)%N then true
      else if (y <? x)%N then false
      else doc_id_le a' b'
  end.

Definition rank_lt (a b : option nat) : bool :=
  match a, b with
  | Some x, Some y => x <? y
  | Some _, None => true
  | None, _ => false
  end.

(** Modelled from the spec: step 3, fused score descending, then lowest
    minimum rank, then doc_id. *)
Definition precedes (rrf_constant : Q) (lists : list (list jsstring))
    (d1 d2 : jsstring) : bool :=
  let s1 := fused_score rrf_constant lists d1 in
  let s2 := fused_score rrf_constant lists d2 in
  if Qlt_bool s2 s1 then true
  else if Qlt_bool s1 s2 then false
  else
    let r1 := min_rank lists d1 in
    let r2 := min_rank lists d2 in
    if rank_lt r1 r2 then true
    else if rank_lt r2 r1 then false
    else doc_id_le d1 d2.

Definition rrf_order (rrf_constant : Q) (lists : list (list jsstring))
  : relation jsstring :=
  λ d1 d2, precedes rrf_constant lists d1 d2 = true.

#[global] Instance rrf_order_dec rrf_constant lists d1 d2 :
  Decision (rrf_order rrf_constant lists d1 d2).
Proof. unfold rrf_order. apply _. Defined.

Record FusedDocument := {
  fd_doc_id : jsstring;
  fd_score : Q;
  fd_rank : nat;
}.

(** Modelled from the spec: steps 2 to 4, every doc_id of any list once,
    sorted, the first [k] kept with ranks 1, 2, ... and the fused score. *)
Definition rrf_fuse (rrf_constant : Q) (lists : list (list jsstring)) (k : nat)
  : list FusedDocument :=
  imap (λ i d, {| fd_doc_id := d;
                  fd_score := fused_score rrf_constant lists d;
                  fd_rank := S i |})
       (take k (merge_sort (rrf_order rrf_constant lists)
                  (remove_dups (concat lists)))).

(** Modelled from the spec: recall@k, the share of the relevant set found
    in the first [k] retrieved documents; null for an empty relevant set. *)
Definition recall_at_k (retrieved : list jsstring) (relevant : gset jsstring)
    (k : nat) : option Q :=
  if decide (relevant = ∅) then None
  else Some (inject_Z (Z.of_nat (size (list_to_set (take k retrieved) ∩ relevant)))
             / inject_Z (Z.of_nat (size relevant)))%Q.

End Retrieval.

(** ** components/evaluation/ProfileSelector.tsx *)

Module ProfileSelector.

(** [profiles.find((p) => p.id === selectedId)] *)
Definition selectedProfile (profiles : list ProfileInfo) (selectedId : jsstring)
  : option ProfileInfo :=
  List.find (λ p, bool_decide (pi_id p = selectedId)) profiles.

Inductive ProfileIcon : Type := Zap | Layers | Search.

Definition getProfileIcon (profile : ProfileInfo) : ProfileIcon :=
  if bool_decide (pi_id profile = js "fast") then Zap
  else if use_reranker profile then Layers
  else Search.

(** The content of the button: icon and name of the selected profile, if
    there is one. *)
Definition button_label (profiles : list ProfileInfo) (selectedId : jsstring)
  : option (ProfileIcon * jsstring) :=
  option_map (λ p, (getProfileIcon p, pi_name p))
    (selectedProfile profiles selectedId).

(** One entry of the open dropdown. *)
Record Entry := {
  entry_id : jsstring;
  entry_name : jsstring;
  entry_icon : ProfileIcon;
  highlighted : bool;
  badges : list jsstring;
}.

Definition entries (profiles : list ProfileInfo) (selectedId : jsstring)
  : list Entry :=
  map (λ profile,
         {| entry_id := pi_id profile;
            entry_name := pi_name profile;
            entry_icon := getProfileIcon profile;
            highlighted := bool_decide (pi_id profile = selectedId);
            badges :=
              [retriever_type profile]
              ++ (if use_reranker profile then [js "reranker"] else [])
              ++ (if use_query_rewrite profile then [js "query rewrite"] else []) |})
      profiles.

(** A click on an entry: the argument of [onSelect] and the new [isOpen]. *)
Definition click_entry (profile : ProfileInfo) : jsstring * bool :=
  (pi_id profile, false).

End ProfileSelector.

(** ** Sample data for the concrete runs below *)

Module Samples.

Definition blank : jsstring := [32%N; 9%N; 10%N; 0x3000%N].

Definition no_latency : LatencyBreakdown :=
  {| total_ms := 0; query_rewrite_ms := 0; retrieval_ms := 0;
     rerank_ms := 0; generation_ms := 0 |}.

Definition result_for (q : jsstring) : EvaluationResult :=
  {| er_question := q; er_answer := js "42"; er_ground_truth := None;
     retrieved_docs := []; retrieval_metrics := None;
     generation_metrics := None; latency := no_latency;
     er_profile_id := js "fast"; routing_decision := js "llm" |}.

(** A backend that answers every evaluation request. *)
Definition echo : SingleEvalRequest → completion exn EvaluationResult :=
  EvaluationApi.evaluateSingle (λ url r, Normal (result_for (question r))).

(** A backend that rejects every evaluation request, with no detail. *)
Definition refuse : SingleEvalRequest → completion exn EvaluationResult :=
  EvaluationApi.evaluateSingle (λ url r, Throw (Axios {| detail := None |})).

(** A backend that rejects every evaluation request with a detail. *)
Definition refuse_with (d : jsstring)
  : SingleEvalRequest → completion exn EvaluationResult :=
  EvaluationApi.evaluateSingle (λ url r, Throw (Axios {| detail := Some d |})).

(** The page after one earlier evaluation, the scorer reported unavailable
    and the checkbox still ticked. *)
Definition page : EvaluationPage.State :=
  {| EvaluationPage.profiles := [];
     EvaluationPage.selectedProfileId := js "hybrid_rerank";
     EvaluationPage.st_question := js " what is RRF? ";
     EvaluationPage.groundTruth := [];
     EvaluationPage.includeRagas := true;
     EvaluationPage.isLoading := false;
     EvaluationPage.results := [result_for (js "first")];
     EvaluationPage.ragasAvailable := false;
     EvaluationPage.error := None |}.

Definition a_file : Api.File :=
  {| Api.f_name := js "notes.txt"; Api.f_bytes := [104%N; 105%N] |}.

(** The upload endpoint accepts the file as task "t1". *)
Definition accept (url : jsstring) (form : list (jsstring * Api.File))
  : completion exn Api.BackendUploadResponse :=
  Normal {| Api.bu_task_id := js "t1"; Api.bu_file_name := js "notes.txt";
            Api.bu_status := js "pending"; Api.bu_message := js "queued" |}.

Definition status_report (st : jsstring) (chunks : option Q)
    (err : option jsstring) : Api.BackendUploadStatusResponse :=
  {| Api.task_id := js "t1"; Api.status := st; Api.file_name := js "notes.txt";
     Api.chunks_created := chunks; Api.us_error := err;
     Api.completed_at := None |}.

(** Two polls see the task in progress, the third sees [final]. *)
Definition third_time (final : Api.BackendUploadStatusResponse) (i : nat)
  : Api.BackendUploadStatusResponse :=
  if i <? 2 then status_report (js "processing") None None else final.

Definition serve (rs : nat → Api.BackendUploadStatusResponse) : Api.getter :=
  λ url i, Normal (rs i).

Definition profile (id : jsstring) (rerank : bool) : ProfileInfo :=
  {| pi_id := id; pi_name := js "Profile " ++ id; pi_description := [];
     retriever_type := js "hybrid"; use_reranker := rerank;
     use_query_rewrite := false |}.

Definition registry : list ProfileInfo :=
  [profile (js "fast") false; profile (js "hybrid_rerank") true].

Definition latency_of (total : Q) : LatencyBreakdown :=
  {| total_ms := total; query_rewrite_ms := 0; retrieval_ms := 0;
     rerank_ms := 0; generation_ms := total |}.

(** A breakdown whose retrieval stage is reported above the total. *)
Definition skewed_latency : LatencyBreakdown :=
  {| total_ms := 1; query_rewrite_ms := 0; retrieval_ms := 2;
     rerank_ms := 0; generation_ms := 0 |}.

Definition typical_latency : LatencyBreakdown :=
  {| total_ms := 1250; query_rewrite_ms := 200; retrieval_ms := 150;
     rerank_ms := 5; generation_ms := 880 |}.

End Samples.

(** * Properties *)

(** ** Trimming *)

Section Trim.

Lemma trimStart_head s : head_not_space (trimStart s).
Proof.
  induction s as [|c s IH]; simpl; [done|].
  destruct (is_white_space c) eqn:Hc; [exact IH | exact Hc].
Qed.

Lemma trimStart_fixed s : head_not_space s → trimStart s = s.
Proof. destruct s as [|c s]; simpl; [done|]. by intros ->. Qed.

Lemma trimStart_suffix s : ∃ w, s = w ++ trimStart s.
Proof.
  induction s as [|c s [w IH]]; simpl; [by exists []|].
  destruct (is_white_space c).
  - exists (c :: w). simpl. by rewrite <- IH.
  - by exists [].
Qed.

Lemma head_not_space_app_l a b :
  a ≠ [] → head_not_space (a ++ b) → head_not_space a.
Proof. by destruct a. Qed.

Lemma trimEnd_head s : head_not_space s → head_not_space (trimEnd s).
Proof.
  intros Hs. unfold trimEnd.
  destruct (trimStart_suffix (reverse s)) as [w Hw].
  destruct (decide (reverse (trimStart (reverse s)) = [])) as [->|Hne]; [done|].
  apply (head_not_space_app_l _ (reverse w)); [done|].
  by rewrite <- reverse_app, <- Hw, reverse_involutive.
Qed.

Lemma trimEnd_fixed s : trimEnd (trimEnd s) = trimEnd s.
Proof.
  unfold trimEnd. rewrite reverse_involutive.
  by rewrite (trimStart_fixed (trimStart _)) by apply trimStart_head.
Qed.

Lemma trim_idemp s : trim (trim s) = trim s.
Proof.
  unfold trim.
  rewrite (trimStart_fixed (trimEnd _)).
  - apply trimEnd_fixed.
  - apply trimEnd_head, trimStart_head.
Qed.

Lemma truthy_false s : truthy s = false ↔ s = [].
Proof. by destruct s. Qed.

End Trim.

(** ** The evaluation page and the chat box *)

Section Handlers.

Import EvaluationPage ChatInterface.

Variable evaluateSingle : SingleEvalRequest → completion exn EvaluationResult.

Lemma handleEvaluate_requests s r :
  r ∈ (handleEvaluate evaluateSingle s).1 →
  truthy (trim (st_question s)) = true
  ∧ question r = trim (st_question s)
  ∧ include_generation_metrics r = includeRagas s && ragasAvailable s.
Proof.
  unfold handleEvaluate.
  destruct (truthy (trim (st_question s))) eqn:Hq; simpl.
  - intros ->%list_elem_of_singleton. done.
  - intros []%elem_of_nil.
Qed.

Lemma handleSend_messages loading connected input m :
  m ∈ (handleSend loading connected input).1 →
  truthy (trim input) = true ∧ m = trim input.
Proof.
  unfold handleSend.
  destruct (truthy (trim input)) eqn:Hq, loading, connected; simpl;
    try (intros []%elem_of_nil).
  by intros ->%list_elem_of_singleton.
Qed.

(** C1. A question whose trimmed form is empty makes [handleEvaluate] set
    the error message and return with no evaluation request issued, makes
    [handleSend] call [onSend] with nothing and leave the input as it is,
    and is never the question of a request or the message of a send. *)
Theorem blank_question_rejected (q : jsstring) :
  trim q = [] →
  (∀ s, st_question s = q →
     handleEvaluate evaluateSingle s
     = ([], setError (Some (js "Please enter a question")) s))
  ∧ (∀ loading connected, handleSend loading connected q = ([], q))
  ∧ (∀ s r, r ∈ (handleEvaluate evaluateSingle s).1 → question r ≠ q)
  ∧ (∀ loading connected input,
       q ∉ (handleSend loading connected input).1).
Proof.
  intros Hq. repeat split.
  - intros s <-. unfold handleEvaluate. by rewrite Hq.
  - intros loading connected. unfold handleSend. by rewrite Hq.
  - intros s r (Ht & Hr & _)%handleEvaluate_requests Heq.
    rewrite <- Heq, Hr, trim_idemp in Hq. by rewrite Hq in Ht.
  - intros loading connected input (Ht & Hm)%handleSend_messages.
    rewrite Hm, trim_idemp in Hq. by rewrite Hq in Ht.
Qed.

Example handleEvaluate_failure :
  handleEvaluate Samples.refuse Samples.page
  = ([ {| question := js "what is RRF?"; ground_truth := None;
          relevant_doc_ids := None; profile_id := js "hybrid_rerank";
          include_generation_metrics := false |} ],
     setError (Some (js "Evaluation failed")) Samples.page).
Proof. reflexivity. Qed.

(** C2, as the code has it.  When the evaluation call succeeds the new
    result is put in front of the history: the updated list is the new
    result followed by all prior results, unchanged and in their order;
    [latestResult] reads it at index 0. *)
Theorem result_prepended_to_history s request result :
  (handleEvaluate evaluateSingle s).1 = [request] →
  evaluateSingle request = Normal result →
  results (handleEvaluate evaluateSingle s).2 = result :: results s
  ∧ latestResult (handleEvaluate evaluateSingle s).2 = Some result
  ∧ ∀ i r, results s !! i = Some r →
           results (handleEvaluate evaluateSingle s).2 !! S i = Some r.
Proof.
  unfold handleEvaluate, latestResult.
  destruct (truthy (trim (st_question s))); simpl; [|done].
  intros [= <-] ->. simpl. done.
Qed.

(** C9. While [ragasAvailable] is false, every request [handleEvaluate]
    builds has [include_generation_metrics = false], whatever the
    checkbox holds. *)
Theorem no_generation_metrics_without_scorer s :
  ragasAvailable s = false →
  ∀ r, r ∈ (handleEvaluate evaluateSingle s).1 →
       include_generation_metrics r = false.
Proof.
  intros Hs r (_ & _ & ->)%handleEvaluate_requests.
  rewrite Hs. apply andb_false_r.
Qed.

End Handlers.

(** Concrete run for C1: a question of blanks, tab, newline and an
    ideographic space. *)
Lemma blank_question_rejected_run :
  trim Samples.blank = []
  ∧ ChatInterface.handleSend false true Samples.blank = ([], Samples.blank).
Proof.
  split; [reflexivity|].
  exact (proj1 (proj2 (blank_question_rejected Samples.echo Samples.blank eq_refl))
           false true).
Defined.

(** C2 as stated fails: with one earlier result in the history, the new
    result does not end up at the end of the list. *)
Lemma result_not_appended_at_end :
  (EvaluationPage.handleEvaluate Samples.echo Samples.page).1
  = [ {| question := js "what is RRF?"; ground_truth := None;
         relevant_doc_ids := None; profile_id := js "hybrid_rerank";
         include_generation_metrics := false |} ]
  ∧ EvaluationPage.results
      (EvaluationPage.handleEvaluate Samples.echo Samples.page).2
    = [Samples.result_for (js "what is RRF?"); Samples.result_for (js "first")]
  ∧ EvaluationPage.results
      (EvaluationPage.handleEvaluate Samples.echo Samples.page).2
    ≠ EvaluationPage.results Samples.page
        ++ [Samples.result_for (js "what is RRF?")].
Proof.
  vm_compute. repeat split. intros H. discriminate H.
Qed.

(** Concrete run for the amended C2. *)
Lemma result_prepended_to_history_run :
  EvaluationPage.results
    (EvaluationPage.handleEvaluate Samples.echo Samples.page).2
  = Samples.result_for (js "what is RRF?")
      :: EvaluationPage.results Samples.page.
Proof.
  exact (proj1 (result_prepended_to_history Samples.echo Samples.page
                  _ _ eq_refl eq_refl)).
Defined.

(** Concrete run for C9: the checkbox is ticked, the scorer is not
    available, one request goes out and it asks for no generation metrics. *)
Lemma no_generation_metrics_without_scorer_run :
  (EvaluationPage.handleEvaluate Samples.echo Samples.page).1 ≠ []
  ∧ ∀ r, r ∈ (EvaluationPage.handleEvaluate Samples.echo Samples.page).1 →
         include_generation_metrics r = false.
Proof.
  split; [discriminate|].
  apply (no_generation_metrics_without_scorer Samples.echo Samples.page).
  reflexivity.
Defined.

(** ** The latency chart *)

Section Latency.

Import LatencyChart.

Lemma Qeq_bool_pos_false (t : Q) : (0 < t)%Q → Qeq_bool t 0 = false.
Proof.
  intros Ht. destruct (Qeq_bool t 0) eqn:E; [|done].
  apply Qeq_bool_eq in E. rewrite E in Ht. by apply Qlt_irrefl in Ht.
Qed.

Lemma width_bounded (t v : Q) name color :
  (0 < t)%Q → (v <= t)%Q →
  ∃ w, width t {| seg_name := name; seg_value := v; seg_color := color |}
       = Finite w ∧ (w <= 100)%Q.
Proof.
  intros Ht Hv. unfold width, js_div. simpl.
  rewrite Qeq_bool_pos_false by done. simpl.
  eexists; split; [reflexivity|].
  apply Qle_trans with (1 * 100)%Q; [|apply Qle_refl].
  apply Qmult_le_compat_r; [|done].
  apply Qle_shift_div_r; [done|]. by rewrite Qmult_1_l.
Qed.


End Latency.



(** ** Number formatting *)

Section Formatting.

Lemma uint_units_nil u : uint_units u = [] → u = Decimal.Nil.
Proof. by destruct u. Qed.

Lemma decimal_nonempty n : decimal n ≠ [].
Proof.
  unfold decimal. intros H%uint_units_nil. destruct n as [|p]; [done|].
  by apply (DecimalPos.Unsigned.to_uint_nonnil p).
Qed.

Lemma toString_large_length x : 4 ≤ length (toString_large x).
Proof.
  unfold toString_large.
  destruct (decimal (Z.to_N (Qfloor x))) as [|d rest] eqn:E.
  { by apply decimal_nonempty in E. }
  pose proof (decimal_nonempty (N.of_nat (length rest))) as Hexp.
  destruct (decimal (N.of_nat (length rest))); [done|].
  simpl. rewrite !length_app. simpl. lia.
Qed.

Lemma toFixed_length x f : f ≠ 0 → 4 `min` (f + 2) ≤ length (toFixed x f).
Proof.
  intros Hf. unfold toFixed. rewrite length_app.
  destruct (Qle_bool _ _).
  { pose proof (toString_large_length (if Qlt_bool x 0 then (- x)%Q else x)). lia. }
  rewrite bool_decide_eq_false_2 by done.
  generalize (decimal (Z.to_N (Qfloor
    ((if Qlt_bool x 0 then (- x)%Q else x) * inject_Z (10 ^ Z.of_nat f) + (1 # 2))%Q))).
  intros m.
  rewrite !length_app, length_take, length_drop, length_app, length_replicate.
  cbn [length]. lia.
Qed.

End Formatting.

(** ** The metrics card *)

Section Card.

Import MetricsCard.

Lemma formatValue_number format (v : Q) :
  formatValue format (Some v) ≠ js "N/A".
Proof.
  destruct format; simpl; intros H.
  - apply (f_equal last) in H. change (js "%") with [37%N] in H.
    rewrite last_snoc in H. discriminate H.
  - apply (f_equal length) in H.
    pose proof (toFixed_length v 2 ltac:(done)) as Hlen.
    rewrite H in Hlen. simpl in Hlen. lia.
  - apply (f_equal last) in H. change (js "ms") with ([109%N] ++ [115%N]) in H.
    rewrite app_assoc, last_snoc in H. discriminate H.
Qed.

Example recall_card :
  value_text (MetricsCard (js "Recall@5") (Some (0.9)%Q) None None (Some (0.85)%Q))
  = js "90.0%"
  ∧ value_class (MetricsCard (js "Recall@5") (Some (0.9)%Q) None None (Some (0.85)%Q))
    = js "text-2xl font-bold text-green-600"
  ∧ value_class (MetricsCard (js "Latency") (Some 1250%Q) None (Some ms) (Some 1000%Q))
    = js "text-2xl font-bold text-amber-600"
  ∧ value_text (MetricsCard (js "Latency") (Some 1250%Q) None (Some ms) (Some 1000%Q))
    = js "1250ms".
Proof. repeat split; vm_compute; reflexivity. Qed.

Lemma getStatusColor_green format (value : option Q) (t : Q) :
  getStatusColor format value (Some t) = js "text-green-600"
  ↔ ∃ v, value = Some v
         ∧ match format with
           | ms => (v <= t)%Q
           | _ => (t <= v)%Q
           end.
Proof.
  destruct value as [v|]; simpl.
  - split.
    + intros H. exists v. split; [done|].
      destruct format; apply Qle_bool_iff;
        (destruct (Qle_bool _ _); [done|discriminate H]).
    + intros (v' & [= <-] & H).
      by destruct format; apply Qle_bool_iff in H; rewrite H.
  - split; [discriminate|]. by intros (v & ? & _).
Qed.

(** C10. The card shows 'N/A' as its value exactly when the value is null;
    and with a numeric target its value is coloured green exactly when
    there is a value with [value >= target] under the percent and number
    formats, or [value <= target] under the ms format. *)
Theorem metrics_card_display title subtitle (format : option Format)
    (value target : option Q) :
  (value_text (MetricsCard title value subtitle format target) = js "N/A"
   ↔ value = None)
  ∧ (∀ t, target = Some t →
       (value_class (MetricsCard title value subtitle format target)
        = js "text-2xl font-bold " ++ js "text-green-600"
        ↔ ∃ v, value = Some v
               ∧ match default percent format with
                 | ms => (v <= t)%Q
                 | _ => (t <= v)%Q
                 end)).
Proof.
  split.
  - unfold MetricsCard, value_text. cbv beta iota zeta.
    destruct value as [v|]; [|done].
    split; [|done]. intros H. by apply formatValue_number in H.
  - intros t ->. unfold MetricsCard, value_class. cbv beta iota zeta.
    rewrite <- getStatusColor_green.
    split; [intros H; by apply (inj (app _)) in H | by intros ->].
Qed.

End Card.

(** ** The service layer *)

Section Services.

Import Api.

(** C5. [sendQuery] posts [{question}] to /api/v1/query, and whatever the
    backend answers there, it returns the answer unchanged and, as sources,
    the content of each returned source in the same order; the sources are
    undefined when the backend sends none. *)
Theorem sendQuery_maps_response post question response :
  post (js "/api/v1/query") {| qb_question := question |} = Normal response →
  ∃ r, sendQuery post question = Normal r
       ∧ answer r = bq_answer response
       ∧ sources r = option_map (map content) (bq_sources response)
       ∧ (bq_sources response = None → sources r = None)
       ∧ ∀ l, bq_sources response = Some l →
           ∃ l', sources r = Some l'
                 ∧ length l' = length l
                 ∧ ∀ i s, l !! i = Some s → l' !! i = Some (content s).
Proof.
  intros Hpost. unfold sendQuery. rewrite Hpost.
  eexists. split; [reflexivity|]. cbn [answer sources].
  split; [done|]. split; [done|]. split; [by intros ->|].
  intros l ->. eexists. split; [reflexivity|].
  split; [apply length_map|].
  intros i s Hs. change (map ?f l) with (f <$> l).
  by rewrite list_lookup_fmap, Hs.
Qed.

(** C8. [checkHealth] always returns a boolean and never throws; the
    boolean is true exactly when the GET succeeds with an object payload
    whose status property is the string 'ok'. *)
Theorem checkHealth_total get :
  ∃ b, checkHealth get = Normal b
       ∧ (b = true ↔
          ∃ response fields,
            get (js "/health") = Normal response
            ∧ r_data response = JObj fields
            ∧ own_property fields (js "status") = JStr (js "ok")).
Proof.
  unfold checkHealth. eexists. split; [reflexivity|].
  destruct (get (js "/health")) as [[payload]|e] eqn:Hget; cbn.
  - destruct payload as [| |b|q|s|items|fields]; cbn;
      try (split; [discriminate | by intros (? & ? & [= <-] & [=] & _)]).
    split.
    + intros H. exists {| r_data := JObj fields |}, fields.
      repeat split. destruct (own_property fields (js "status")); try done.
      cbn in H. by apply bool_decide_eq_true in H as ->.
    + intros (? & ? & [= <-] & [= <-] & ->). cbn. by apply bool_decide_eq_true.
  - split; [discriminate | by intros (? & ? & [=] & _)].
Qed.

Example checkHealth_ok :
  checkHealth (λ _, Normal {| r_data := JObj [(js "status", JStr (js "ok"))] |})
  = Normal true.
Proof. reflexivity. Qed.

Example checkHealth_null_payload :
  checkHealth (λ _, Normal {| r_data := JNull |}) = Normal false.
Proof. reflexivity. Qed.

Example checkHealth_network_error :
  checkHealth (λ _, Throw (Axios {| detail := None |})) = Normal false.
Proof. reflexivity. Qed.

Lemma terminal_status r :
  terminal r = true ↔ status r = js "completed" ∨ status r = js "failed".
Proof.
  unfold terminal. rewrite orb_true_iff, !bool_decide_eq_true. done.
Qed.

Section Polling.

Variables (get : getter) (taskId : jsstring).
Variable rs : nat → BackendUploadStatusResponse.
Hypothesis get_rs : ∀ i, get (js "/api/v1/upload/" ++ taskId) i = Normal (rs i).

Lemma poll_loop_timeout n i :
  (∀ j, j < n → terminal (rs (i + j)) = false) →
  poll_loop get taskId n i = Throw (Error (js "Upload timeout")).
Proof.
  revert i. induction n as [|n IH]; intros i Hnone; [done|].
  cbn [poll_loop]. rewrite get_rs. cbn.
  specialize (Hnone 0 ltac:(lia)) as H0. rewrite Nat.add_0_r in H0.
  rewrite H0. apply IH. intros j Hj.
  replace (S i + j) with (i + S j) by lia. apply Hnone. lia.
Qed.

Lemma poll_loop_found n i k :
  k < n → terminal (rs (i + k)) = true →
  (∀ j, j < k → terminal (rs (i + j)) = false) →
  poll_loop get taskId n i = Normal (rs (i + k)).
Proof.
  revert i k. induction n as [|n IH]; intros i k Hk Hterm Hbefore; [lia|].
  cbn [poll_loop]. rewrite get_rs. cbn.
  destruct k as [|k].
  - rewrite Nat.add_0_r in *. by rewrite Hterm.
  - specialize (Hbefore 0 ltac:(lia)) as H0. rewrite Nat.add_0_r in H0.
    rewrite H0. replace (i + S k) with (S i + k) in * by lia.
    apply IH; [lia|done|]. intros j Hj.
    replace (S i + j) with (i + S j) by lia. apply Hbefore. lia.
Qed.

Lemma first_terminal n :
  (∀ j, j < n → terminal (rs j) = false)
  ∨ ∃ k, k < n ∧ terminal (rs k) = true ∧ ∀ j, j < k → terminal (rs j) = false.
Proof.
  induction n as [|n [IH|(k & Hk & Hterm & Hbefore)]].
  - left. lia.
  - destruct (terminal (rs n)) eqn:Hn.
    + right. exists n. split; [lia|]. split; [done|]. intros j Hj. apply IH, Hj.
    + left. intros j Hj. destruct (decide (j = n)) as [->|]; [done|].
      apply IH. lia.
  - right. exists k. split; [lia|]. done.
Qed.

Lemma reached_unique i j : reached rs i → reached rs j → i = j.
Proof.
  intros (_ & Hi & Hbi) (_ & Hj & Hbj).
  destruct (Nat.lt_trichotomy i j) as [H|[H|H]]; [|done|].
  - apply Hbj in H. congruence.
  - apply Hbi in H. congruence.
Qed.

Lemma pollUploadStatus_reached i :
  reached rs i →
  pollUploadStatus get taskId default_maxAttempts = Normal (rs i).
Proof.
  intros (Hi & Hterm & Hbefore). unfold pollUploadStatus.
  by apply (poll_loop_found default_maxAttempts 0 i).
Qed.

Lemma pollUploadStatus_unreached :
  (∀ j, j < default_maxAttempts → terminal (rs j) = false) →
  pollUploadStatus get taskId default_maxAttempts
  = Throw (Error (js "Upload timeout")).
Proof. intros H. by apply poll_loop_timeout. Qed.

End Polling.

End Services.

Section Upload.

Import Api.

(** C4, as the code has it.  Once the upload is accepted and while the
    status requests succeed, [uploadDocument] returns a success result
    exactly when the poll reaches a 'completed' status within its 60
    attempts; it throws otherwise: when the poll reaches a 'failed' status,
    an error carrying the reported error message, or 'Upload failed' if the
    report has no message or an empty one; and when neither status shows up
    in 60 attempts, the error 'Upload timeout'. *)
Theorem uploadDocument_outcome post get file up rs :
  post (js "/api/v1/upload") [(js "file", file)] = Normal up →
  (∀ i, get (js "/api/v1/upload/" ++ bu_task_id up) i = Normal (rs i)) →
  (∀ r, uploadDocument post get file = Normal r ↔
        ∃ i, reached rs i ∧ status (rs i) = js "completed"
             ∧ r = {| success := true;
                      message := js "Upload completed";
                      data := {| ud_file_name := file_name (rs i);
                                 ud_chunks_created := or_zero (chunks_created (rs i));
                                 ud_doc_id := task_id (rs i) |} |})
  ∧ (∀ e, uploadDocument post get file = Throw e ↔
        (∃ i, reached rs i ∧ status (rs i) = js "failed"
              ∧ e = Error (or_default (us_error (rs i)) (js "Upload failed")))
        ∨ ((∀ i, i < default_maxAttempts → terminal (rs i) = false)
           ∧ e = Error (js "Upload timeout"))).
Proof.
  intros Hpost Hget. unfold uploadDocument. rewrite Hpost. cbn [mbind completion_bind].
  destruct (first_terminal rs default_maxAttempts)
    as [Hnone|(k & Hk & Hterm & Hbefore)].
  - rewrite (pollUploadStatus_unreached get _ rs Hget Hnone).
    cbn [mbind completion_bind].
    split.
    + intros r. split; [discriminate|].
      intros (i & (Hi & Hti & _) & _). apply Hnone in Hi. congruence.
    + intros e. split.
      * intros [= <-]. by right.
      * intros [(i & (Hi & Hti & _) & _)|[_ ->]]; [|done].
        apply Hnone in Hi. congruence.
  - assert (Hreach : reached rs k) by done.
    rewrite (pollUploadStatus_reached get _ rs Hget k Hreach).
    cbn [mbind completion_bind].
    apply terminal_status in Hterm.
    destruct (decide (status (rs k) = js "failed")) as [Hfailed|Hnot].
    + rewrite bool_decide_eq_true_2 by done.
      split.
      * intros r. split; [discriminate|].
        intros (i & Hi & Hc & _).
        rewrite (reached_unique rs _ _ Hi Hreach), Hfailed in Hc. discriminate Hc.
      * intros e. split.
        -- intros [= <-]. left. by exists k.
        -- intros [(i & Hi & _ & ->)|[Hnone _]].
           ++ by rewrite (reached_unique rs _ _ Hi Hreach).
           ++ apply Hnone in Hk. destruct Hreach as (_ & ? & _). congruence.
    + rewrite bool_decide_eq_false_2 by done.
      destruct Hterm as [Hcompleted|?]; [|done].
      split.
      * intros r. split.
        -- intros [= <-]. by exists k.
        -- intros (i & Hi & _ & ->).
           by rewrite (reached_unique rs _ _ Hi Hreach).
      * intros e. split; [discriminate|].
        intros [(i & Hi & Hf & _)|[Hnone _]].
        -- by rewrite (reached_unique rs _ _ Hi Hreach) in Hf.
        -- apply Hnone in Hk. destruct Hreach as (_ & ? & _). congruence.
Qed.

End Upload.

(** Concrete run for C5: two sources come back, their contents are kept in
    order. *)
Lemma sendQuery_maps_response_run :
  ∃ r, Api.sendQuery
         (λ url body,
            Normal {| Api.bq_answer := js "RRF is rank fusion";
                      Api.bq_sources :=
                        Some [ {| Api.content := js "doc A"; Api.source := None;
                                  Api.bs_score := Some (1 # 2)%Q |};
                               {| Api.content := js "doc B"; Api.source := None;
                                  Api.bs_score := None |} ];
                      Api.processing_time_ms := 12 |})
         (js "what is RRF?") = Normal r
       ∧ answer r = js "RRF is rank fusion"
       ∧ sources r = Some [js "doc A"; js "doc B"].
Proof.
  edestruct (sendQuery_maps_response
               (λ url body,
                  Normal {| Api.bq_answer := js "RRF is rank fusion";
                            Api.bq_sources :=
                              Some [ {| Api.content := js "doc A"; Api.source := None;
                                        Api.bs_score := Some (1 # 2)%Q |};
                                     {| Api.content := js "doc B"; Api.source := None;
                                        Api.bs_score := None |} ];
                            Api.processing_time_ms := 12 |})
               (js "what is RRF?") _ eq_refl) as (r & Hr & Ha & Hs & _).
  exists r. split; [exact Hr|]. split; [exact Ha | exact Hs].
Defined.

(** C4 as stated fails: a 'failed' status that reports no error message, or
    an empty one, is reached, and the error thrown carries the fixed text
    'Upload failed', not a reported message. *)
Lemma failed_upload_without_message :
  Api.reached (Samples.third_time (Samples.status_report (js "failed") None None)) 2
  ∧ Api.uploadDocument Samples.accept
      (Samples.serve (Samples.third_time (Samples.status_report (js "failed") None None)))
      Samples.a_file
    = Throw (Error (js "Upload failed"))
  ∧ (¬ ∃ msg, Api.us_error (Samples.status_report (js "failed") None None) = Some msg)
  ∧ Api.uploadDocument Samples.accept
      (Samples.serve (Samples.third_time (Samples.status_report (js "failed") None (Some []))))
      Samples.a_file
    ≠ Throw (Error []).
Proof.
  split; [|split; [|split]].
  - split; [unfold Api.default_maxAttempts; lia|]. split; [reflexivity|].
    intros j Hj. by destruct j as [|[|j]]; [| |lia].
  - reflexivity.
  - by intros [msg Hmsg].
  - vm_compute. discriminate.
Qed.

(** Concrete run for the amended C4: the third poll reports 'completed'
    with 7 chunks. *)
Lemma uploadDocument_outcome_run :
  Api.uploadDocument Samples.accept
    (Samples.serve (Samples.third_time
                      (Samples.status_report (js "completed") (Some 7%Q) None)))
    Samples.a_file
  = Normal {| success := true; message := js "Upload completed";
              data := {| ud_file_name := js "notes.txt";
                         ud_chunks_created := 7;
                         ud_doc_id := js "t1" |} |}.
Proof.
  apply (proj1 (uploadDocument_outcome Samples.accept
                  (Samples.serve (Samples.third_time
                     (Samples.status_report (js "completed") (Some 7%Q) None)))
                  Samples.a_file _ _ eq_refl (λ i, eq_refl))).
  exists 2. split; [|split; reflexivity].
  split; [unfold Api.default_maxAttempts; lia|]. split; [reflexivity|].
  intros j Hj. by destruct j as [|[|j]]; [| |lia].
Defined.

(** ** The retrieval core *)

Section Fusion.

Import Retrieval.

Lemma rank_in_None l d : rank_in l d = None ↔ d ∉ l.
Proof.
  induction l as [|x l IH]; simpl.
  - split; [intros _; apply not_elem_of_nil | done].
  - rewrite not_elem_of_cons. destruct (decide (x = d)) as [->|Hne].
    + split; [discriminate | by intros [? _]].
    + rewrite fmap_None, IH. split; [by intros ?|by intros [_ ?]].
Qed.

Lemma elem_of_concat (x : jsstring) (ls : list (list jsstring)) :
  x ∈ concat ls ↔ ∃ l, l ∈ ls ∧ x ∈ l.
Proof.
  rewrite list_elem_of_In, in_concat.
  split; intros (l & Hl & Hx); exists l; by rewrite ?list_elem_of_In in *.
Qed.

(** The rank is the 1-based position of the first occurrence. *)
Lemma rank_in_Some l d r :
  rank_in l d = Some r ↔
  ∃ i, r = S i ∧ l !! i = Some d ∧ ∀ j, j < i → l !! j ≠ Some d.
Proof.
  revert r. induction l as [|x l IH]; intros r; simpl.
  - split; [discriminate | by intros (i & _ & ? & _)].
  - destruct (decide (x = d)) as [->|Hne].
    + split.
      * intros [= <-]. exists 0. split; [done|]. split; [done|]. lia.
      * intros (i & -> & Hi & Hfirst). destruct i as [|i]; [done|].
        by destruct (Hfirst 0 ltac:(lia)).
    + rewrite fmap_Some. split.
      * intros (r' & (i & -> & Hi & Hfirst)%IH & ->).
        exists (S i). split; [done|]. split; [done|].
        intros [|j] Hj; simpl; [congruence|]. apply Hfirst. lia.
      * intros (i & -> & Hi & Hfirst). destruct i as [|i]; simpl in Hi; [congruence|].
        exists (S i). split; [|done]. apply IH. exists i.
        split; [done|]. split; [done|].
        intros j Hj. apply (Hfirst (S j)). lia.
Qed.

Lemma rrf_fuse_elem c lists k e :
  e ∈ rrf_fuse c lists k →
  fd_score e = fused_score c lists (fd_doc_id e)
  ∧ ∃ l, l ∈ lists ∧ fd_doc_id e ∈ l.
Proof.
  unfold rrf_fuse. intros (i & d & -> & Hd)%elem_of_lookup_imap.
  split; [done|]. cbn [fd_doc_id].
  apply list_elem_of_lookup_2, subseteq_take in Hd.
  rewrite merge_sort_Permutation, elem_of_remove_dups in Hd.
  apply elem_of_concat in Hd as (l & Hl & Hd). by exists l.
Qed.

Lemma fused_score_only_first c l1 l2 d r :
  rank_in l1 d = Some r → d ∉ l2 →
  (fused_score c [l1; l2] d == 1 / (c + inject_Z (Z.of_nat r)))%Q.
Proof.
  intros H1 H2%rank_in_None. unfold fused_score, rrf_term. cbn [foldr].
  rewrite H1, H2. ring.
Qed.

Lemma fused_score_only_second c l1 l2 d r :
  d ∉ l1 → rank_in l2 d = Some r →
  (fused_score c [l1; l2] d == 1 / (c + inject_Z (Z.of_nat r)))%Q.
Proof.
  intros H1%rank_in_None H2. unfold fused_score, rrf_term. cbn [foldr].
  rewrite H1, H2. ring.
Qed.

(** C6.  In the fusion of two ranked lists, a doc_id that is in exactly one
    of them, at rank [r] there, has fused score [1 / (rrf_constant + r)],
    which is also the score of its entry in the fused output; a doc_id in
    neither list has no entry in the fused output. *)
Theorem rrf_two_lists (rrf_constant : Q) (l1 l2 : list jsstring)
    (d : jsstring) (k : nat) :
  (∀ r, (rank_in l1 d = Some r ∧ d ∉ l2) ∨ ((d ∉ l1) ∧ rank_in l2 d = Some r) →
     (fused_score rrf_constant [l1; l2] d
      == 1 / (rrf_constant + inject_Z (Z.of_nat r)))%Q
     ∧ ∀ e, e ∈ rrf_fuse rrf_constant [l1; l2] k → fd_doc_id e = d →
            (fd_score e == 1 / (rrf_constant + inject_Z (Z.of_nat r)))%Q)
  ∧ (d ∉ l1 → d ∉ l2 →
     ∀ e, e ∈ rrf_fuse rrf_constant [l1; l2] k → fd_doc_id e ≠ d).
Proof.
  split.
  - intros r Hone.
    assert (Hscore : (fused_score rrf_constant [l1; l2] d
                      == 1 / (rrf_constant + inject_Z (Z.of_nat r)))%Q).
    { destruct Hone as [[H1 H2]|[H1 H2]];
        [by apply fused_score_only_first | by apply fused_score_only_second]. }
    split; [done|].
    intros e [-> _]%rrf_fuse_elem ->. done.
  - intros H1 H2 e [_ (l & Hl & Hd)]%rrf_fuse_elem <-.
    apply elem_of_cons in Hl as [->|Hl]; [done|].
    apply elem_of_cons in Hl as [->|Hl]; [done|].
    by apply elem_of_nil in Hl.
Qed.

End Fusion.

Section Recall.

Import Retrieval.

Lemma take_mono (l : list jsstring) k1 k2 : k1 ≤ k2 → take k1 l ⊆ take k2 l.
Proof.
  intros Hk x (i & Hi & Hlt)%elem_of_take. apply elem_of_take.
  exists i. split; [done|lia].
Qed.

(** C7.  For a fixed retrieved list and a fixed non-empty relevant set,
    recall@k is defined at every k and does not decrease as k grows. *)
Theorem recall_at_k_monotone (retrieved : list jsstring)
    (relevant : gset jsstring) (k1 k2 : nat) :
  relevant ≠ ∅ → k1 ≤ k2 →
  ∃ r1 r2, recall_at_k retrieved relevant k1 = Some r1
           ∧ recall_at_k retrieved relevant k2 = Some r2
           ∧ (r1 <= r2)%Q.
Proof.
  intros Hne Hk. unfold recall_at_k.
  destruct (decide (relevant = ∅)) as [|_]; [done|].
  eexists _, _. split; [reflexivity|]. split; [reflexivity|].
  unfold Qdiv. apply Qmult_le_compat_r.
  - rewrite <- Zle_Qle. apply Nat2Z.inj_le, subseteq_size.
    intros x [Hx Hrel]%elem_of_intersection.
    apply elem_of_intersection. split; [|done].
    rewrite elem_of_list_to_set in *. by apply (take_mono retrieved k1 k2 Hk).
  - apply Qinv_le_0_compat. rewrite <- (Zle_Qle 0). lia.
Qed.

End Recall.

(** Concrete run for C6: "b" is second in the dense list only, "d" second
    in the sparse list only, "z" in neither. *)
Lemma rrf_two_lists_run :
  (Retrieval.fused_score 60 [[js "a"; js "b"; js "c"]; [js "c"; js "d"]] (js "b")
   == 1 / (60 + inject_Z (Z.of_nat 2)))%Q
  ∧ ∀ e, e ∈ Retrieval.rrf_fuse 60 [[js "a"; js "b"; js "c"]; [js "c"; js "d"]] 3 →
         Retrieval.fd_doc_id e ≠ js "z".
Proof.
  split.
  - apply (proj1 (rrf_two_lists 60 [js "a"; js "b"; js "c"] [js "c"; js "d"]
                    (js "b") 3) 2).
    left. split; [reflexivity|]. apply rank_in_None. reflexivity.
  - apply (proj2 (rrf_two_lists 60 [js "a"; js "b"; js "c"] [js "c"; js "d"]
                    (js "z") 3)); apply rank_in_None; reflexivity.
Defined.

(** Scenario A of the specification: both relevant documents are in the
    top 5, one of them in the top 3. *)
Example recall_scenario_A :
  Retrieval.recall_at_k [js "d2"; js "d1"; js "d4"; js "d3"; js "d5"]
    {[ js "d1"; js "d3" ]} 5 = Some (2 # 2)%Q
  ∧ Retrieval.recall_at_k [js "d2"; js "d1"; js "d4"; js "d3"; js "d5"]
      {[ js "d1"; js "d3" ]} 3 = Some (1 # 2)%Q.
Proof. split; vm_compute; reflexivity. Qed.

(** Concrete run for C7 on scenario A. *)
Lemma recall_at_k_monotone_run :
  ∃ r1 r2,
    Retrieval.recall_at_k [js "d2"; js "d1"; js "d4"; js "d3"; js "d5"]
      {[ js "d1"; js "d3" ]} 3 = Some r1
    ∧ Retrieval.recall_at_k [js "d2"; js "d1"; js "d4"; js "d3"; js "d5"]
        {[ js "d1"; js "d3" ]} 5 = Some r2
    ∧ (r1 <= r2)%Q.
Proof.
  apply (recall_at_k_monotone [js "d2"; js "d1"; js "d4"; js "d3"; js "d5"]
           {[ js "d1"; js "d3" ]} 3 5).
  - set_solver.
  - lia.
Defined.

(** * Further properties of the client code *)

(** ** The evaluation page: requests, history and settled state *)

Section PageRuns.

Import EvaluationPage.

Variable evaluateSingle : SingleEvalRequest → completion exn EvaluationResult.

Lemma trim_no_leading s : head_not_space (trim s).
Proof. apply trimEnd_head, trimStart_head. Qed.

Lemma trim_no_trailing s : head_not_space (reverse (trim s)).
Proof.
  unfold trim, trimEnd. rewrite reverse_involutive. apply trimStart_head.
Qed.

(** X1. Every request [handleEvaluate] issues is the only one of that run;
    its question is non-empty and has no white space at either end, its
    profile is the selected one, it names no relevant documents, and its
    ground truth is either absent or the non-empty trimmed text of the
    ground-truth box. *)
Theorem handleEvaluate_request_wellformed s r :
  r ∈ (handleEvaluate evaluateSingle s).1 →
  (handleEvaluate evaluateSingle s).1 = [r]
  ∧ question r ≠ []
  ∧ head_not_space (question r)
  ∧ head_not_space (reverse (question r))
  ∧ profile_id r = selectedProfileId s
  ∧ relevant_doc_ids r = None
  ∧ ∀ g, ground_truth r = Some g →
         g ≠ [] ∧ g = trim (groundTruth s)
         ∧ head_not_space g ∧ head_not_space (reverse g).
Proof.
  unfold handleEvaluate.
  destruct (truthy (trim (st_question s))) eqn:Hq; cbn [negb fst].
  2:{ intros []%elem_of_nil. }
  intros ->%list_elem_of_singleton. cbn [question profile_id relevant_doc_ids ground_truth].
  split; [done|]. split; [by destruct (trim (st_question s))|].
  split; [apply trim_no_leading|]. split; [apply trim_no_trailing|].
  split; [done|]. split; [done|].
  intros g. destruct (truthy (trim (groundTruth s))) eqn:Hg; [|done].
  intros [= <-]. split; [by destruct (trim (groundTruth s))|].
  split; [done|]. split; [apply trim_no_leading | apply trim_no_trailing].
Qed.

(** X2. [handleEvaluate] never edits what the user entered and never drops
    history: the profile list, the selection, both text boxes, the checkbox
    and the scorer flag are as before, and the history is either unchanged
    or the old one with one result of the backend in front. *)
Theorem handleEvaluate_keeps_inputs_and_history s :
  let s' := (handleEvaluate evaluateSingle s).2 in
  profiles s' = profiles s
  ∧ selectedProfileId s' = selectedProfileId s
  ∧ st_question s' = st_question s
  ∧ groundTruth s' = groundTruth s
  ∧ includeRagas s' = includeRagas s
  ∧ ragasAvailable s' = ragasAvailable s
  ∧ (results s' = results s
     ∨ ∃ request result,
         evaluateSingle request = Normal result
         ∧ results s' = result :: results s).
Proof.
  unfold handleEvaluate.
  destruct (truthy (trim (st_question s))); cbn [negb snd];
    [|repeat split; by left].
  match goal with |- context [evaluateSingle ?r] =>
    destruct (evaluateSingle r) as [result|e] eqn:Hev end;
    cbn; repeat split; [right; eauto | by left].
Qed.

(** X3. A run on a non-blank question always settles with the loading flag
    off.  If the call resolved, the error is cleared and the result heads
    the history.  If it rejected, the history is untouched and an error is
    set: the rejection's detail when that is a non-empty string, and
    'Evaluation failed' when the rejection carries no detail or an empty
    one. *)
Theorem handleEvaluate_settles s :
  trim (st_question s) ≠ [] →
  ∃ request,
    (handleEvaluate evaluateSingle s).1 = [request]
    ∧ isLoading (handleEvaluate evaluateSingle s).2 = false
    ∧ (∀ result, evaluateSingle request = Normal result →
         error (handleEvaluate evaluateSingle s).2 = None
         ∧ results (handleEvaluate evaluateSingle s).2 = result :: results s)
    ∧ (∀ e, evaluateSingle request = Throw e →
         results (handleEvaluate evaluateSingle s).2 = results s
         ∧ error (handleEvaluate evaluateSingle s).2 ≠ None
         ∧ (∀ d, error_detail e = Some d → d ≠ [] →
              error (handleEvaluate evaluateSingle s).2 = Some d)
         ∧ (error_detail e = None ∨ error_detail e = Some [] →
            error (handleEvaluate evaluateSingle s).2
            = Some (js "Evaluation failed"))).
Proof.
  intros Hq. unfold handleEvaluate.
  destruct (truthy (trim (st_question s))) eqn:Ht.
  2:{ by apply truthy_false in Ht. }
  cbn [negb fst snd]. eexists. split; [reflexivity|].
  match goal with |- context [evaluateSingle ?r] =>
    destruct (evaluateSingle r) as [result0|e0] end; cbn [setIsLoading isLoading error results setResults setError].
  - split; [done|]. split; [by intros result [= <-]|]. by intros e [=].
  - split; [done|]. split; [by intros result [=]|].
    intros e [= <-]. split; [done|]. split; [done|]. split.
    + intros d -> Hd. unfold or_default. by destruct d.
    + intros [-> | ->]; reflexivity.
Qed.

Lemma dispatch_ragasAvailable a s :
  ragasAvailable (dispatch evaluateSingle a s).2 = ragasAvailable s.
Proof.
  destruct a; try done. cbn [dispatch]. unfold handleEvaluate.
  destruct (truthy (trim (st_question s))); cbn [negb snd]; [|done].
  match goal with |- context [evaluateSingle ?r] =>
    by destruct (evaluateSingle r) end.
Qed.

(** X8. While the Run Evaluation button is enabled, a click issues exactly
    one request, carrying the trimmed question; and a run that issues no
    request is one the button would not have allowed. *)
Theorem evaluate_button_enabled_sends_once s :
  (evaluate_disabled s = false →
   ∃ r, (handleEvaluate evaluateSingle s).1 = [r]
        ∧ question r = trim (st_question s))
  ∧ ((handleEvaluate evaluateSingle s).1 = [] → evaluate_disabled s = true).
Proof.
  unfold evaluate_disabled, handleEvaluate.
  destruct (truthy (trim (st_question s))); cbn [negb fst]; split.
  - intros _. eexists. split; reflexivity.
  - discriminate.
  - rewrite orb_true_r. discriminate.
  - intros _. apply orb_true_r.
Qed.

End PageRuns.

Section PageSession.

Import EvaluationPage.

Variable evaluateSingle : nat → SingleEvalRequest → completion exn EvaluationResult.

Lemma session_ragasAvailable n actions s :
  ragasAvailable (session evaluateSingle n actions s).2 = ragasAvailable s.
Proof.
  revert n s. induction actions as [|a rest IH]; intros n s; [done|].
  cbn [session snd]. by rewrite IH, dispatch_ragasAvailable.
Qed.

(** X7. Whatever the user types, ticks, selects, dismisses, clears or runs,
    and whatever the backend answers, a page whose scorer flag is off never
    issues a request that asks for generation metrics, and the flag stays
    off: only the health check on mount can turn it on. *)
Theorem session_never_requests_metrics_without_scorer n actions s :
  ragasAvailable s = false →
  ragasAvailable (session evaluateSingle n actions s).2 = false
  ∧ ∀ r, r ∈ (session evaluateSingle n actions s).1 →
         include_generation_metrics r = false.
Proof.
  intros Hs. split; [by rewrite session_ragasAvailable|].
  revert n s Hs. induction actions as [|a rest IH]; intros n s Hs r.
  { intros []%elem_of_nil. }
  cbn [session fst]. rewrite elem_of_app. intros [Hr|Hr].
  - destruct a; cbn [dispatch fst] in Hr; try by apply elem_of_nil in Hr.
    apply handleEvaluate_requests in Hr as (_ & _ & ->).
    rewrite Hs. apply andb_false_r.
  - apply (IH (S n) (dispatch (evaluateSingle n) a s).2); [|done].
    by rewrite dispatch_ragasAvailable.
Qed.

End PageSession.

Section PageLoadExport.

Import EvaluationPage.

(** X4. With an empty history [handleExport] does nothing at all: no export
    request, no download, no change of state, whatever the endpoints would
    have answered. *)
Theorem handleExport_empty_history exportJson exportCsv now_iso format s :
  results s = [] →
  handleExport exportJson exportCsv now_iso format s = ([], s).
Proof. intros Hr. unfold handleExport. by rewrite Hr. Qed.

Lemma export_timestamp_no_colon iso : 58%N ∉ export_timestamp iso.
Proof.
  unfold export_timestamp. change (map ?f ?l) with (f <$> l).
  intros (c & Hc & _)%list_elem_of_fmap.
  destruct (c =? 58)%N eqn:E; [discriminate Hc|].
  apply N.eqb_neq in E. congruence.
Qed.

(** X5. Every file [handleExport] downloads is the blob the endpoint of the
    chosen format returned for the whole history; its name is
    eval_results_, at most 19 characters of time stamp, a dot and the
    format, and contains no colon; the page state is left as it was. *)
Theorem handleExport_download exportJson exportCsv now_iso format s blob name :
  (blob, name) ∈ (handleExport exportJson exportCsv now_iso format s).1 →
  results s ≠ []
  ∧ match format with
    | json => exportJson (results s)
    | csv => exportCsv (results s)
    end = Normal blob
  ∧ (∃ stamp, name = js "eval_results_" ++ stamp ++ js "." ++ format_name format
              ∧ length stamp ≤ 19)
  ∧ (58%N ∉ name)
  ∧ (handleExport exportJson exportCsv now_iso format s).2 = s.
Proof.
  unfold handleExport. destruct (results s) as [|r0 rs] eqn:Hres; cbn [length Nat.eqb].
  { intros []%elem_of_nil. }
  assert (Hname : ∀ ext, 58%N ∉ ext →
            58%N ∉ js "eval_results_" ++ export_timestamp now_iso ++ js "." ++ ext).
  { intros ext Hext. rewrite !elem_of_app. intros [H|[H|[H|H]]].
    - revert H. change (58%N ∉ js "eval_results_"). compute_done.
    - by apply export_timestamp_no_colon in H.
    - revert H. change (58%N ∉ js "."). compute_done.
    - done. }
  assert (Hlen : length (export_timestamp now_iso) ≤ 19).
  { unfold export_timestamp. rewrite length_map, length_take. lia. }
  destruct format.
  - destruct (exportJson (r0 :: rs)) as [b|e]; cbn [fst snd].
    2:{ intros []%elem_of_nil. }
    intros H%list_elem_of_singleton. apply pair_equal_spec in H as [-> ->].
    split; [done|]. split; [done|]. split; [by eexists|]. split; [|done].
    apply Hname. compute_done.
  - destruct (exportCsv (r0 :: rs)) as [b|e]; cbn [fst snd].
    2:{ intros []%elem_of_nil. }
    intros H%list_elem_of_singleton. apply pair_equal_spec in H as [-> ->].
    split; [done|]. split; [done|]. split; [by eexists|]. split; [|done].
    apply Hname. compute_done.
Qed.

End PageLoadExport.

(** Concrete runs for X1 and X3 on the sample page. *)
Lemma handleEvaluate_request_wellformed_run :
  (EvaluationPage.handleEvaluate Samples.refuse Samples.page).1
  = [ {| question := js "what is RRF?"; ground_truth := None;
         relevant_doc_ids := None; profile_id := js "hybrid_rerank";
         include_generation_metrics := false |} ].
Proof.
  apply (handleEvaluate_request_wellformed Samples.refuse Samples.page).
  apply list_elem_of_here.
Defined.

Lemma handleEvaluate_settles_run :
  EvaluationPage.isLoading
    (EvaluationPage.handleEvaluate (Samples.refuse_with (js "Profile not found"))
       Samples.page).2 = false
  ∧ EvaluationPage.error
      (EvaluationPage.handleEvaluate (Samples.refuse_with (js "Profile not found"))
         Samples.page).2 = Some (js "Profile not found")
  ∧ EvaluationPage.results
      (EvaluationPage.handleEvaluate (Samples.refuse_with (js "Profile not found"))
         Samples.page).2 = EvaluationPage.results Samples.page.
Proof.
  destruct (handleEvaluate_settles (Samples.refuse_with (js "Profile not found"))
              Samples.page ltac:(discriminate))
    as (request & Hreq & Hload & _ & Hrej).
  injection Hreq as <-.
  destruct (Hrej _ eq_refl) as (Hres & _ & Hdetail & _).
  split; [exact Hload|]. split; [|exact Hres].
  apply Hdetail; [reflexivity|discriminate].
Defined.

(** Concrete run for X7: the user ticks the checkbox, retypes the question
    and runs twice. *)
Lemma session_never_requests_metrics_without_scorer_run :
  length (EvaluationPage.session (λ _, Samples.echo) 0
            [EvaluationPage.ChangeIncludeRagas true; EvaluationPage.RunEvaluation;
             EvaluationPage.ChangeQuestion (js "and BM25?");
             EvaluationPage.RunEvaluation]
            Samples.page).1 = 2
  ∧ ∀ r, r ∈ (EvaluationPage.session (λ _, Samples.echo) 0
                [EvaluationPage.ChangeIncludeRagas true; EvaluationPage.RunEvaluation;
                 EvaluationPage.ChangeQuestion (js "and BM25?");
                 EvaluationPage.RunEvaluation]
                Samples.page).1 →
         include_generation_metrics r = false.
Proof.
  split; [reflexivity|].
  apply (session_never_requests_metrics_without_scorer (λ _, Samples.echo) 0
           [EvaluationPage.ChangeIncludeRagas true; EvaluationPage.RunEvaluation;
            EvaluationPage.ChangeQuestion (js "and BM25?");
            EvaluationPage.RunEvaluation]
           Samples.page).
  reflexivity.
Defined.

(** Concrete run for X4. *)
Lemma handleExport_empty_history_run :
  EvaluationPage.handleExport (λ _, Throw TypeError) (λ _, Throw TypeError)
    (js "2026-01-02T03:04:05.678Z") EvaluationPage.csv EvaluationPage.initial
  = ([], EvaluationPage.initial).
Proof.
  apply (handleExport_empty_history (λ _, Throw TypeError) (λ _, Throw TypeError)
           (js "2026-01-02T03:04:05.678Z") EvaluationPage.csv
           EvaluationPage.initial).
  reflexivity.
Defined.

(** Concrete run for X5: the name of a CSV export. *)
Lemma handleExport_download_run :
  (EvaluationPage.handleExport
     (λ _, Normal {| EvaluationApi.blob_bytes := [91%N; 93%N] |})
     (λ _, Normal {| EvaluationApi.blob_bytes := [113%N] |})
     (js "2026-01-02T03:04:05.678Z") EvaluationPage.csv Samples.page).1
  = [({| EvaluationApi.blob_bytes := [113%N] |},
      js "eval_results_2026-01-02T03-04-05.csv")]
  ∧ 58%N ∉ js "eval_results_2026-01-02T03-04-05.csv".
Proof.
  split; [reflexivity|].
  apply (handleExport_download
           (λ _, Normal {| EvaluationApi.blob_bytes := [91%N; 93%N] |})
           (λ _, Normal {| EvaluationApi.blob_bytes := [113%N] |})
           (js "2026-01-02T03:04:05.678Z") EvaluationPage.csv Samples.page
           {| EvaluationApi.blob_bytes := [113%N] |}).
  apply list_elem_of_here.
Defined.

(** ** The chat box: button, keyboard and handler *)

Section ChatBox.

Import ChatInterface.

(** X9. [handleSend] and the send button agree: the handler sends nothing
    and keeps the input exactly when the button is disabled; otherwise it
    sends one message, the trimmed input, and empties the box. *)
Theorem send_button_matches_handleSend loading connected input :
  (send_disabled loading connected input = true
   ↔ handleSend loading connected input = ([], input))
  ∧ (send_disabled loading connected input = false
     ↔ handleSend loading connected input = ([trim input], [])).
Proof.
  unfold send_disabled, handleSend.
  destruct (truthy (trim input)), loading, connected; cbn; split; split;
    done || discriminate.
Qed.

(** X10. A key press sends a message only if the key is Enter without
    Shift and the send button is enabled; the message is then the trimmed
    input, the default action of the key is suppressed and the box is
    emptied.  Every other key, and Shift+Enter, leaves the box alone and the
    default action in place. *)
Theorem handleKeyDown_only_plain_enter loading connected e input :
  (∀ m, m ∈ (handleKeyDown loading connected e input).2.1 →
     key e = js "Enter" ∧ shiftKey e = false
     ∧ send_disabled loading connected input = false
     ∧ m = trim input
     ∧ handleKeyDown loading connected e input = (true, ([trim input], [])))
  ∧ (key e ≠ js "Enter" ∨ shiftKey e = true →
     handleKeyDown loading connected e input = (false, ([], input))).
Proof.
  unfold handleKeyDown. split.
  - intros m. destruct (decide (key e = js "Enter")) as [Hk|Hk].
    + rewrite bool_decide_eq_true_2 by done.
      destruct (shiftKey e); cbn [negb andb snd fst].
      { intros []%elem_of_nil. }
      intros Hm. destruct (handleSend_messages _ _ _ _ Hm) as [Ht ->].
      unfold send_disabled, handleSend in *. rewrite Ht in *.
      destruct loading, connected; cbn in *;
        try (by apply elem_of_nil in Hm); done.
    + rewrite bool_decide_eq_false_2 by done. cbn. intros []%elem_of_nil.
  - intros [Hk| ->].
    + by rewrite bool_decide_eq_false_2.
    + by rewrite andb_false_r.
Qed.

End ChatBox.

(** ** The latency charts: drawn bars and scaling *)

Section Charts.

Import LatencyChart.

Lemma js_percent (v t : Q) :
  (0 < t)%Q → js_mul (js_div v t) 100 = Finite (v / t * 100)%Q.
Proof.
  intros Ht. unfold js_div. by rewrite Qeq_bool_pos_false.
Qed.

Lemma Qpos_nonzero (t : Q) : (0 < t)%Q → ¬ (t == 0)%Q.
Proof. intros Ht E. rewrite E in Ht. by apply Qlt_irrefl in Ht. Qed.

Lemma percent_at_least_one (v t : Q) :
  (0 < t)%Q → (1 <= v / t * 100)%Q ↔ (t <= v * 100)%Q.
Proof.
  intros Ht. rewrite <- (Qmult_le_r 1 (v / t * 100) t Ht).
  assert (E : (v / t * 100 * t == v * 100)%Q) by (field; by apply Qpos_nonzero).
  by rewrite E, Qmult_1_l.
Qed.


Lemma Math_max_spec (xs : list Q) :
  xs ≠ [] →
  ∃ m, Math_max xs = Finite m ∧ m ∈ xs ∧ ∀ x, x ∈ xs → (x <= m)%Q.
Proof.
  induction xs as [|x xs IH]; [done|]. intros _.
  destruct xs as [|y ys].
  { exists x. split; [done|]. split; [apply list_elem_of_here|].
    intros z ->%list_elem_of_singleton. apply Qle_refl. }
  destruct IH as (m & Hm & Hin & Hmax); [done|].
  cbn [Math_max foldr] in *. rewrite Hm.
  destruct (Qle_bool m x) eqn:E.
  - apply Qle_bool_iff in E. exists x. split; [done|].
    split; [apply list_elem_of_here|].
    intros z [->|Hz]%elem_of_cons; [apply Qle_refl|].
    apply Qle_trans with m; [by apply Hmax|done].
  - exists m. split; [done|]. split; [by apply list_elem_of_further|].
    intros z [->|Hz]%elem_of_cons; [|by apply Hmax].
    apply Qlt_le_weak, Qnot_le_lt. intros H. apply Qle_bool_iff in H. congruence.
Qed.

Lemma percent_below_100 (t m : Q) :
  (0 < m)%Q → (t < m)%Q → (t / m * 100 < 100)%Q.
Proof.
  intros Hm Ht. apply (Qmult_lt_r _ _ m Hm).
  assert (E : (t / m * 100 * m == t * 100)%Q) by (field; by apply Qpos_nonzero).
  rewrite E, (Qmult_comm 100 m). by apply Qmult_lt_r.
Qed.


End Charts.



(** ** Polling and upload: what is returned, read and passed on *)

Section PollingBounds.

Import Api.

Lemma poll_loop_terminal get taskId n i r :
  poll_loop get taskId n i = Normal r → terminal r = true.
Proof.
  revert i. induction n as [|n IH]; intros i; [discriminate|].
  cbn [poll_loop]. destruct (get _ i) as [response|e]; cbn; [|discriminate].
  destruct (terminal response) eqn:Hterm; [|apply IH].
  by intros [= <-].
Qed.

(** X14. Whatever the status endpoint answers, including rejections, and
    for any attempt budget, a response [pollUploadStatus] returns reports
    'completed' or 'failed': an unfinished status is never handed to the
    caller. *)
Theorem pollUploadStatus_returns_terminal get taskId maxAttempts r :
  pollUploadStatus get taskId maxAttempts = Normal r →
  status r = js "completed" ∨ status r = js "failed".
Proof.
  intros H%poll_loop_terminal. by apply terminal_status.
Qed.

Lemma poll_loop_agree get get' taskId n i :
  (∀ j, i ≤ j < i + n →
     get (js "/api/v1/upload/" ++ taskId) j = get' (js "/api/v1/upload/" ++ taskId) j) →
  poll_loop get taskId n i = poll_loop get' taskId n i.
Proof.
  revert i. induction n as [|n IH]; intros i Hagree; [done|].
  cbn [poll_loop]. rewrite (Hagree i) by lia.
  destruct (get' _ i) as [response|e]; cbn; [|done].
  destruct (terminal response); [done|]. apply IH. intros j Hj. apply Hagree. lia.
Qed.

(** X15. [pollUploadStatus] reads the status URL of its task only, and at
    most [maxAttempts] times: two endpoints that agree on the first
    [maxAttempts] answers at that URL give the same outcome. *)
Theorem pollUploadStatus_bounded get get' taskId maxAttempts :
  (∀ j, j < maxAttempts →
     get (js "/api/v1/upload/" ++ taskId) j = get' (js "/api/v1/upload/" ++ taskId) j) →
  pollUploadStatus get taskId maxAttempts = pollUploadStatus get' taskId maxAttempts.
Proof.
  intros Hagree. apply poll_loop_agree. intros j Hj. apply Hagree. lia.
Qed.

Lemma poll_loop_rejected get taskId (rs : nat → BackendUploadStatusResponse) e n i k :
  k < n →
  (∀ j, j < k → get (js "/api/v1/upload/" ++ taskId) (i + j) = Normal (rs (i + j))
                ∧ terminal (rs (i + j)) = false) →
  get (js "/api/v1/upload/" ++ taskId) (i + k) = Throw e →
  poll_loop get taskId n i = Throw e.
Proof.
  revert i k. induction n as [|n IH]; intros i k Hk Hbefore Hthrow; [lia|].
  cbn [poll_loop]. destruct k as [|k].
  - rewrite Nat.add_0_r in Hthrow. by rewrite Hthrow.
  - destruct (Hbefore 0 ltac:(lia)) as [Hget Hterm].
    rewrite Nat.add_0_r in Hget, Hterm. rewrite Hget. cbn. rewrite Hterm.
    apply (IH (S i) k); [lia| |].
    + intros j Hj. replace (S i + j) with (i + S j) by lia. apply Hbefore. lia.
    + by replace (S i + k) with (i + S k) by lia.
Qed.

(** X16. [uploadDocument] passes rejections on as they are: if the upload
    request rejects, it rejects with the same error and the status endpoint
    has no say in the outcome; if the upload is accepted and a status
    request rejects within the 60 attempts before any 'completed' or
    'failed' status was seen, it rejects with that error. *)
Theorem uploadDocument_passes_rejections post get file e :
  (post (js "/api/v1/upload") [(js "file", file)] = Throw e →
   ∀ get', uploadDocument post get' file = Throw e)
  ∧ (∀ up rs k,
       post (js "/api/v1/upload") [(js "file", file)] = Normal up →
       k < default_maxAttempts →
       (∀ j, j < k →
          get (js "/api/v1/upload/" ++ bu_task_id up) j = Normal (rs j)
          ∧ terminal (rs j) = false) →
       get (js "/api/v1/upload/" ++ bu_task_id up) k = Throw e →
       uploadDocument post get file = Throw e).
Proof.
  unfold uploadDocument. split.
  - by intros -> get'.
  - intros up rs k -> Hk Hbefore Hthrow. cbn [mbind completion_bind].
    unfold pollUploadStatus.
    by rewrite (poll_loop_rejected get _ rs e default_maxAttempts 0 k).
Qed.

End PollingBounds.

(** Concrete run for X14: the third answer is the first finished one. *)
Lemma pollUploadStatus_returns_terminal_run :
  Api.status (Samples.status_report (js "failed") None None) = js "completed"
  ∨ Api.status (Samples.status_report (js "failed") None None) = js "failed".
Proof.
  apply (pollUploadStatus_returns_terminal
           (Samples.serve (Samples.third_time
                             (Samples.status_report (js "failed") None None)))
           (js "t1") 5).
  reflexivity.
Defined.

(** Concrete run for X15: with a budget of two attempts the finished third
    answer is never read. *)
Lemma pollUploadStatus_bounded_run :
  Api.pollUploadStatus
    (Samples.serve (Samples.third_time
                      (Samples.status_report (js "completed") None None)))
    (js "t1") 2
  = Api.pollUploadStatus
      (Samples.serve (Samples.third_time
                        (Samples.status_report (js "failed") None None)))
      (js "t1") 2.
Proof.
  apply (pollUploadStatus_bounded
           (Samples.serve (Samples.third_time
                             (Samples.status_report (js "completed") None None)))
           (Samples.serve (Samples.third_time
                             (Samples.status_report (js "failed") None None)))
           (js "t1") 2).
  intros j Hj. by destruct j as [|[|j]]; [| |lia].
Defined.

(** Concrete run for X16: the connection drops on the second poll. *)
Lemma uploadDocument_passes_rejections_run :
  Api.uploadDocument Samples.accept
    (λ url i,
       if i <? 1 then Normal (Samples.status_report (js "processing") None None)
       else Throw (Axios {| detail := None |}))
    Samples.a_file
  = Throw (Axios {| detail := None |}).
Proof.
  apply (proj2 (uploadDocument_passes_rejections Samples.accept
                  (λ url i,
                     if i <? 1
                     then Normal (Samples.status_report (js "processing") None None)
                     else Throw (Axios {| detail := None |}))
                  Samples.a_file (Axios {| detail := None |}))
           _ (λ _, Samples.status_report (js "processing") None None) 1 eq_refl).
  - unfold Api.default_maxAttempts. lia.
  - intros j Hj. by destruct j; [|lia].
  - reflexivity.
Defined.

(** ** The metrics card: icon and colour *)

Section CardIcon.

Import MetricsCard.

(** X17. The trend icon and the status colour of a card always agree: the
    icon is green exactly when the value is green, amber exactly when it is
    amber, and the grey dash exactly when the value is grey.  A green icon
    points down under the ms format and up under the others; an amber one
    the other way round. *)
Theorem trend_icon_matches_status format (value target : option Q) :
  (getStatusColor format value target = js "text-green-600"
   ↔ icon_className (getTrendIcon format value target) = js "w-4 h-4 text-green-500")
  ∧ (getStatusColor format value target = js "text-amber-600"
     ↔ icon_className (getTrendIcon format value target) = js "w-4 h-4 text-amber-500")
  ∧ (getStatusColor format value target = js "text-gray-600"
     ↔ getTrendIcon format value target = Minus (js "w-4 h-4 text-gray-400"))
  ∧ (getStatusColor format value target = js "text-green-600" →
     getTrendIcon format value target
     = match format with
       | ms => TrendingDown (js "w-4 h-4 text-green-500")
       | _ => TrendingUp (js "w-4 h-4 text-green-500")
       end)
  ∧ (getStatusColor format value target = js "text-amber-600" →
     getTrendIcon format value target
     = match format with
       | ms => TrendingUp (js "w-4 h-4 text-amber-500")
       | _ => TrendingDown (js "w-4 h-4 text-amber-500")
       end).
Proof.
  unfold getStatusColor, getTrendIcon.
  destruct value as [v|], target as [t|]; cbn [icon_className];
    try (repeat split; done || discriminate).
  destruct format;
    match goal with |- context [Qle_bool ?a ?b] => destruct (Qle_bool a b) end;
    cbn [icon_className]; repeat split; done || discriminate.
Qed.

End CardIcon.

(** ** The profile selector *)

Section Selector.

Import ProfileSelector.

Lemma selectedProfile_None profiles selectedId :
  selectedProfile profiles selectedId = None ↔ selectedId ∉ map pi_id profiles.
Proof.
  unfold selectedProfile. induction profiles as [|p ps IH]; cbn [List.find map].
  - split; [intros _; apply not_elem_of_nil | done].
  - rewrite not_elem_of_cons. destruct (decide (pi_id p = selectedId)) as [Hp|Hp].
    + rewrite bool_decide_eq_true_2 by done. split; [discriminate|]. by intros [? _].
    + rewrite bool_decide_eq_false_2 by done. rewrite IH.
      split; [by intros ?|by intros [_ ?]].
Qed.

(** X18. The selector button is blank exactly when the selected id is not
    the id of any loaded profile; otherwise it shows the first profile of
    the list that has the selected id, with that profile's icon and name. *)
Theorem selector_button_shows_first_match profiles selectedId :
  (button_label profiles selectedId = None
   ↔ selectedId ∉ map pi_id profiles)
  ∧ ∀ label, button_label profiles selectedId = Some label →
      ∃ i p, profiles !! i = Some p
             ∧ pi_id p = selectedId
             ∧ label = (getProfileIcon p, pi_name p)
             ∧ ∀ j q, j < i → profiles !! j = Some q → pi_id q ≠ selectedId.
Proof.
  unfold button_label. split.
  - rewrite <- selectedProfile_None.
    by destruct (selectedProfile profiles selectedId).
  - unfold selectedProfile.
    induction profiles as [|p ps IH]; cbn [List.find]; [discriminate|].
    intros label. destruct (decide (pi_id p = selectedId)) as [Hp|Hp].
    + rewrite bool_decide_eq_true_2 by done. intros [= <-].
      exists 0, p. repeat split; [done|]. lia.
    + rewrite bool_decide_eq_false_2 by done.
      intros (i & q & Hi & Hq & Hl & Hfirst)%IH.
      exists (S i), q. repeat split; [done..|].
      intros [|j] q' Hj; cbn; [by intros [= <-]|]. apply Hfirst. lia.
Qed.

Lemma no_entry_highlighted profiles selectedId :
  selectedId ∉ map pi_id profiles →
  List.filter highlighted (entries profiles selectedId) = [].
Proof.
  induction profiles as [|p ps IH]; cbn [map entries List.filter highlighted]; [done|].
  intros [Hp Hps]%not_elem_of_cons.
  rewrite bool_decide_eq_false_2 by done. cbv beta iota. by apply IH.
Qed.

(** X19. When the loaded profiles have distinct ids and the selected id is
    one of them, the open dropdown highlights exactly one entry, and it is
    the entry of the profile the button shows. *)
Theorem dropdown_highlights_selected profiles selectedId :
  NoDup (map pi_id profiles) →
  selectedId ∈ map pi_id profiles →
  ∃ p e, selectedProfile profiles selectedId = Some p
         ∧ List.filter highlighted (entries profiles selectedId) = [e]
         ∧ entry_id e = selectedId
         ∧ entry_name e = pi_name p
         ∧ entry_icon e = getProfileIcon p.
Proof.
  unfold selectedProfile.
  induction profiles as [|p ps IH];
    cbn [map entries List.find List.filter highlighted].
  { intros _ []%elem_of_nil. }
  intros [Hfresh Hnodup]%NoDup_cons Hin.
  destruct (decide (pi_id p = selectedId)) as [Hp|Hp].
  - rewrite !bool_decide_eq_true_2 by done. cbv beta iota.
    fold (entries ps selectedId).
    rewrite no_entry_highlighted by (by rewrite <- Hp).
    eexists p, _. split; [done|]. split; [done|]. done.
  - rewrite !bool_decide_eq_false_2 by done. cbv beta iota.
    apply elem_of_cons in Hin as [?|Hin]; [done|]. by apply IH.
Qed.

End Selector.

(** Concrete run for X19 on the two sample profiles. *)
Lemma dropdown_highlights_selected_run :
  ∃ p e, ProfileSelector.selectedProfile Samples.registry (js "hybrid_rerank") = Some p
         ∧ List.filter ProfileSelector.highlighted
             (ProfileSelector.entries Samples.registry (js "hybrid_rerank")) = [e]
         ∧ ProfileSelector.entry_id e = js "hybrid_rerank"
         ∧ ProfileSelector.entry_name e = pi_name p
         ∧ ProfileSelector.entry_icon e = ProfileSelector.getProfileIcon p.
Proof.
  apply (dropdown_highlights_selected Samples.registry (js "hybrid_rerank")).
  - compute_done.
  - compute_done.
Defined.
